(** * scripts/fetch_nyu_schedge.py: the Schedge -> QuACS transform and its driver

    A shallow embedding of [transform_to_quacs_schema], [get_json],
    [fetch_courses] and [main], together with the part of Python's data
    model those functions rely on (truthiness, [dict.get], iteration,
    [str], [str.strip], the [or] operator and exceptions).

    Conventions of the embedding.
    - A Python [str] is a [string]; a character of the string stands for the
      code point of the same number (U+0000 .. U+00FF).
    - A Python [float] is carried by its [repr] text ([repr] is injective on
      floats), so that [str] of a float is exact.
    - [str] and f-string fields are [py_format]: the text [py_str] when every
      integer in the value has at most 4300 decimal digits, ValueError
      otherwise. The interpreter's recursion limit is not modelled.
    - A Python [dict] is an association list in insertion order; [dict.get]
      returns the first binding of the key.
    - Code that may raise returns a [result]. *)

From Stdlib Require Import ZArith List String Ascii Bool Lia.
From Stdlib Require Import DecimalString DecimalPos DecimalZ.
Import ListNotations.
Open Scope string_scope.
Open Scope Z_scope.

(** ** Exceptions and the error monad *)

(** The subclasses of Exception the program can meet. *)
Inductive exn : Type :=
| AttributeError          (* method lookup on a value that lacks it *)
| TypeError               (* iteration or len() on a value that has none *)
| ValueError              (* an integer too long to convert to or from text *)
| Timeout                 (* requests.exceptions.Timeout *)
| ConnectionError         (* requests.exceptions.ConnectionError *)
| TooManyRedirects        (* requests.exceptions.TooManyRedirects *)
| HTTPError (status : Z)  (* raised by Response.raise_for_status *)
| JSONDecodeError         (* raised by Response.json *)
| KeyError                (* subscript of a dict with a key it lacks *)
| OSError                 (* filesystem failure *)
| UnicodeEncodeError      (* text the UTF-8 encoder refuses *)
| OtherException (name : string).  (* any other subclass of Exception *)

Inductive result (A : Type) : Type :=
| Ok (a : A)
| Raise (e : exn).
Arguments Ok {A} a.
Arguments Raise {A} e.

Definition bind {A B} (m : result A) (k : A -> result B) : result B :=
  match m with
  | Ok a => k a
  | Raise e => Raise e
  end.

Notation "x <- m ;; k" := (bind m (fun x => k))
  (at level 61, m at next level, right associativity).

(** ** Python values as [requests]' [Response.json] produces them *)

#[warnings="-register-all"]
Inductive pyval : Type :=
| PNone
| PBool (b : bool)
| PInt (n : Z)
| PFloat (repr : string)
| PStr (s : string)
| PList (items : list pyval)
| PDict (entries : list (string * pyval)).

(** [bool(v)] *)
Definition truthy (v : pyval) : bool :=
  match v with
  | PNone => false
  | PBool b => b
  | PInt n => negb (n =? 0)
  | PFloat r => negb ((r =? "0.0")%string || (r =? "-0.0")%string)
  | PStr s => negb (s =? "")%string
  | PList l => match l with [] => false | _ :: _ => true end
  | PDict d => match d with [] => false | _ :: _ => true end
  end.

(** ** Strings: [str.strip], [repr] and [str] *)

(** [str.isspace] on one character, for code points below U+0100. *)
Definition is_space (c : ascii) : bool :=
  let n := Z.of_N (N_of_ascii c) in
  ((9 <=? n) && (n <=? 13)) || ((28 <=? n) && (n <=? 32))
  || (n =? 133) || (n =? 160).

Fixpoint lstrip (s : string) : string :=
  match s with
  | EmptyString => EmptyString
  | String c s' => if is_space c then lstrip s' else s
  end.

Fixpoint rstrip (s : string) : string :=
  match s with
  | EmptyString => EmptyString
  | String c s' =>
      match rstrip s' with
      | EmptyString => if is_space c then EmptyString else String c EmptyString
      | r => String c r
      end
  end.

Definition strip (s : string) : string := rstrip (lstrip s).

Fixpoint contains_char (c : ascii) (s : string) : bool :=
  match s with
  | EmptyString => false
  | String c' s' => Ascii.eqb c c' || contains_char c s'
  end.

Definition hex_digit (n : N) : ascii :=
  if (n <? 10)%N then ascii_of_N (48 + n) else ascii_of_N (87 + n).

(** [str.isprintable] on one character, for code points below U+0100. *)
Definition is_printable (c : ascii) : bool :=
  let n := Z.of_N (N_of_ascii c) in
  ((32 <=? n) && (n <=? 126))
  || ((161 <=? n) && (n <=? 255) && negb (n =? 173)).

Definition backslash : ascii := ascii_of_N 92.
Definition squote : ascii := ascii_of_N 39.
Definition dquote : ascii := ascii_of_N 34.

Definition escape_char (quote c : ascii) : string :=
  let n := N_of_ascii c in
  if Ascii.eqb c quote || Ascii.eqb c backslash then String backslash (String c "")
  else if (n =? 9)%N then String backslash "t"
  else if (n =? 10)%N then String backslash "n"
  else if (n =? 13)%N then String backslash "r"
  else if is_printable c then String c ""
  else String backslash
         (String "x" (String (hex_digit (n / 16)) (String (hex_digit (n mod 16)) ""))).

Fixpoint escape_all (quote : ascii) (s : string) : string :=
  match s with
  | EmptyString => EmptyString
  | String c s' => escape_char quote c ++ escape_all quote s'
  end.

(** [repr] of a [str]: single quotes, unless the text has a single quote and
    no double quote. *)
Definition repr_str (s : string) : string :=
  let quote :=
    if contains_char squote s && negb (contains_char dquote s)
    then dquote else squote in
  String quote (escape_all quote s ++ String quote "").

(** The decimal text of [n]: what [str(n)] returns when it returns. *)
Definition str_int (n : Z) : string := NilZero.string_of_int (Z.to_int n).

(** sys.int_info.default_max_str_digits *)
Definition INT_MAX_STR_DIGITS : Z := 4300.

(** [n] has no more decimal digits than the limit, the sign not counted:
    the integers [str], [repr] and f-strings convert. *)
Definition int_prints (n : Z) : bool :=
  Z.of_nat (String.length (str_int (Z.abs n))) <=? INT_MAX_STR_DIGITS.

Fixpoint join (sep : string) (parts : list string) : string :=
  match parts with
  | [] => ""
  | [p] => p
  | p :: rest => p ++ sep ++ join sep rest
  end.

Fixpoint py_repr (v : pyval) : string :=
  match v with
  | PNone => "None"
  | PBool true => "True"
  | PBool false => "False"
  | PInt n => str_int n
  | PFloat r => r
  | PStr s => repr_str s
  | PList l => "[" ++ join ", " (map py_repr l) ++ "]"
  | PDict d =>
      "{" ++ join ", " (map (fun '(k, x) => repr_str k ++ ": " ++ py_repr x) d) ++ "}"
  end.

(** The text of [str(v)], when [str(v)] returns. *)
Definition py_str (v : pyval) : string :=
  match v with
  | PStr s => s
  | _ => py_repr v
  end.

(** Every integer in [v], however deep, is one that converts to text. *)
Fixpoint prints (v : pyval) : bool :=
  match v with
  | PInt n => int_prints n
  | PList l => forallb prints l
  | PDict d => forallb (fun '(_, x) => prints x) d
  | _ => true
  end.

(** [str(v)], and the f-string replacement field [{v}]: ValueError on an
    integer above the digit limit, also one inside a list or dict. *)
Definition py_format (v : pyval) : result string :=
  if prints v then Ok (py_str v) else Raise ValueError.

(** ** [dict.get], iteration, [len] and [or] *)

Fixpoint lookup (k : string) (d : list (string * pyval)) : option pyval :=
  match d with
  | [] => None
  | (k', v) :: d' => if (k =? k')%string then Some v else lookup k d'
  end.

Definition get_or (d : list (string * pyval)) (k : string) (default : pyval) : pyval :=
  match lookup k d with
  | Some x => x
  | None => default
  end.

(** [v.get(k, default)]; only a dict has the method. *)
Definition py_get (v : pyval) (k : string) (default : pyval) : result pyval :=
  match v with
  | PDict d => Ok (get_or d k default)
  | _ => Raise AttributeError
  end.

Definition chars (s : string) : list pyval :=
  map (fun c => PStr (String c "")) (list_ascii_of_string s).

(** The items a [for] loop over [v] visits. *)
Definition py_iter (v : pyval) : result (list pyval) :=
  match v with
  | PList l => Ok l
  | PStr s => Ok (chars s)
  | PDict d => Ok (map (fun kv => PStr (fst kv)) d)
  | _ => Raise TypeError
  end.

Definition py_len (v : pyval) : result nat :=
  match v with
  | PList l => Ok (List.length l)
  | PStr s => Ok (String.length s)
  | PDict d => Ok (List.length d)
  | _ => Raise TypeError
  end.

(** [a or b]: [b] is evaluated only when [a] is falsy. *)
Definition por (a b : result pyval) : result pyval :=
  match a with
  | Raise e => Raise e
  | Ok x => if truthy x then Ok x else b
  end.

Notation "a 'or_else' b" := (por a b) (at level 50, left associativity).

(** The value of [a or b] when neither operand raises. *)
Definition pick (a b : pyval) : pyval := if truthy a then a else b.

(** [for x in items: body], threading the loop's accumulator. *)
Fixpoint for_each {S : Type} (items : list pyval) (body : pyval -> S -> result S)
  (acc : S) : result S :=
  match items with
  | [] => Ok acc
  | x :: rest => acc' <- body x acc ;; for_each rest body acc'
  end.

(** ** transform_to_quacs_schema *)

(** Lines 84-86: one turn of the instructors loop. *)
Definition instructor_name (i : pyval) : result pyval :=
  py_get i "name" PNone
  or_else (first <- py_get i "firstName" (PStr "") ;;
           first_text <- py_format first ;;
           last <- py_get i "lastName" (PStr "") ;;
           last_text <- py_format last ;;
           Ok (PStr (strip (first_text ++ " " ++ last_text)))).

Definition instructor_step (i : pyval) (instrs : list pyval) : result (list pyval) :=
  name <- instructor_name i ;;
  Ok (if truthy name then (instrs ++ [name])%list else instrs).

(** Lines 90-99: the dict appended for one meeting. *)
Definition meeting_out (m : pyval) : result pyval :=
  days <- py_get m "days" PNone or_else py_get m "pattern" PNone or_else Ok (PStr "") ;;
  start <- py_get m "startTime" PNone ;;
  end_ <- py_get m "endTime" PNone ;;
  campus <- py_get m "campus" PNone or_else py_get m "campusName" PNone ;;
  building <- py_get m "building" PNone or_else py_get m "buildingName" PNone ;;
  room <- py_get m "room" PNone or_else Ok (PStr "") ;;
  modality <- py_get m "instructionMode" PNone or_else py_get m "mode" PNone
              or_else Ok (PStr "") ;;
  Ok (PDict [("days", days); ("start", start); ("end", end_); ("campus", campus);
             ("building", building); ("room", room); ("modality", modality)]).

Definition meeting_step (m : pyval) (meetings_out : list pyval) : result (list pyval) :=
  d <- meeting_out m ;; Ok (meetings_out ++ [d])%list.

(** Lines 80-105: the dict appended for one section. *)
Definition section_out (s : pyval) : result pyval :=
  sec_code <- py_get s "sectionCode" PNone or_else py_get s "code" PNone
              or_else py_get s "registrationNumber" PNone or_else Ok (PStr "") ;;
  raw_instrs <- py_get s "instructors" (PList []) ;;
  items <- py_iter raw_instrs ;;
  instrs <- for_each items instructor_step [] ;;
  raw_meetings <- py_get s "meetings" (PList []) ;;
  items' <- py_iter raw_meetings ;;
  meetings_out <- for_each items' meeting_step [] ;;
  Ok (PDict [("section", sec_code); ("instructors", PList instrs);
             ("meetings", PList meetings_out)]).

Definition section_step (s : pyval) (sections_out : list pyval) : result (list pyval) :=
  d <- section_out s ;; Ok (sections_out ++ [d])%list.

(** Lines 72-114: the dict appended for one course. *)
Definition course_out (c : pyval) : result pyval :=
  subject <- py_get c "subjectCode" PNone or_else py_get c "subject" PNone
             or_else Ok (PStr "") ;;
  number <- py_get c "courseNumber" PNone or_else py_get c "code" PNone
            or_else py_get c "catalogNumber" PNone or_else Ok (PStr "") ;;
  title <- py_get c "name" PNone or_else py_get c "title" PNone or_else Ok (PStr "") ;;
  credits <- py_get c "credits" PNone or_else py_get c "minCredits" PNone
             or_else Ok (PInt 0) ;;
  raw_sections <- py_get c "sections" (PList []) ;;
  items <- py_iter raw_sections ;;
  sections_out <- for_each items section_step [] ;;
  subject_text <- py_format subject ;;            (* line 108: f"{subject} {number}" *)
  number_text <- py_format number ;;
  number_str <- py_format number ;;               (* line 110: str(number) *)
  Ok (PDict [("id", PStr (strip (subject_text ++ " " ++ number_text)));
             ("subject", subject);
             ("number", PStr number_str);
             ("title", title);
             ("credits", credits);
             ("sections", PList sections_out)]).

Definition course_step (c : pyval) (out_courses : list pyval) : result (list pyval) :=
  d <- course_out c ;; Ok (out_courses ++ [d])%list.

Definition transform_to_quacs_schema (raw_courses : pyval) : result pyval :=
  items <- py_iter raw_courses ;;
  out_courses <- for_each items course_step [] ;;
  Ok (PDict [("courses", PList out_courses)]).

(** ** The driver: network, filesystem and console *)

Definition BASE : string := "https://nyu.a1liu.com/api".
Definition TERMS_ENDPOINT : string := BASE ++ "/v3/terms".
Definition MVP_SCHOOL : string := "EG".
Definition MVP_SUBJECT : string := "CS".
Definition YEAR : Z := 2025.
Definition TERM : string := "fa".

(** What one [requests.get(url, params=params, timeout=30)] meets. *)
Inductive http_outcome : Type :=
| Failed (e : exn)                              (* [requests.get] raised [e] *)
| Response (status : Z) (body : result pyval).  (* [body]: what [r.json()] does *)

Definition query := option (list (string * pyval)).

(** The world outside the process: the answer to every request, whether the
    filesystem refuses an operation, and whether and with what the dump
    raises. *)
Record environment : Type := {
  net : string -> query -> http_outcome;
  mkdir_fails : bool;
  open_fails : bool;
  dump_fails : bool;
  dump_exception : exn    (* what a failing [json.dump] raises *)
}.

Definition get_json (env : environment) (url : string) (params : query) : result pyval :=
  match net env url params with
  | Failed e => Raise e
  | Response status body =>
      (* r.raise_for_status() *)
      if (400 <=? status) && (status <? 600) then Raise (HTTPError status)
      else (* r.json() *) body
  end.

Definition guess_schedge_endpoints : list (string * string) :=
  [("subjects", BASE ++ "/v3/subjects"); ("courses", BASE ++ "/v3/courses")].

(** [eps[k]] *)
Definition endpoint (eps : list (string * string)) (k : string) : result string :=
  match find (fun kv => (fst kv =? k)%string) eps with
  | Some kv => Ok (snd kv)
  | None => Raise KeyError
  end.

Definition fetch_courses (env : environment) (year : Z) (term school subject : string)
  : result pyval :=
  let eps := guess_schedge_endpoints in
  let params := [("year", PInt year); ("term", PStr term); ("school", PStr school);
                 ("subject", PStr subject)] in
  url <- endpoint eps "courses" ;;
  get_json env url (Some params).

(** The file at OUT_FILE: what [json.dump] wrote, bytes from an earlier run,
    or the opened and not completed file an interrupted dump leaves. *)
Inductive file_content : Type :=
| EarlierBytes (text : string)
| JsonDump (doc : pyval)
| Truncated.

(** One [print] call. *)
Inductive event : Type :=
| SayFetchingTerms
| SayTermsExample (prefix : string)
| SayWarning (url : string) (e : exn)
| SayFetching (year : Z) (term school subject : string)
| SayTransforming (n : nat)
| SayWrote.

Record world : Type := {
  out_dir : bool;                      (* semester_data/2025/fa exists *)
  out_file : option file_content;      (* semester_data/2025/fa/courses.json *)
  console : list event
}.

(** Programs: state passing with exceptions; the state survives a raise. *)
Definition prog (A : Type) : Type := world -> result A * world.

Definition pbind {A B} (m : prog A) (k : A -> prog B) : prog B :=
  fun w => match m w with
           | (Ok a, w') => k a w'
           | (Raise e, w') => (Raise e, w')
           end.

Notation "x <~ m ;; k" := (pbind m (fun x => k))
  (at level 61, m at next level, right associativity).
Notation "m ;;; k" := (pbind m (fun _ => k))
  (at level 61, right associativity).

Definition lift {A} (r : result A) : prog A := fun w => (r, w).

(** [w] with more lines on the console. *)
Definition logged (w : world) (evs : list event) : world :=
  {| out_dir := out_dir w; out_file := out_file w; console := (console w ++ evs)%list |}.

Definition print (ev : event) : prog unit := fun w => (Ok tt, logged w [ev]).

(** [try: body / except Exception as e: handler e] *)
Definition try_except {A} (body : prog A) (handler : exn -> prog A) : prog A :=
  fun w => match body w with
           | (Raise e, w') => handler e w'
           | done => done
           end.

(** [OUT_DIR.mkdir(parents=True, exist_ok=True)] *)
Definition mkdir_out_dir (env : environment) : prog unit :=
  fun w => if mkdir_fails env then (Raise OSError, w)
           else (Ok tt, {| out_dir := true; out_file := out_file w; console := console w |}).

(** [with open(OUT_FILE, "w", encoding="utf-8") as f: json.dump(out, f, ...)].
    The file is opened, which empties it, before the dump starts; a dump that
    raises (the disk refuses a write, or the encoder refuses the document)
    leaves it cut short. *)
Definition write_out_file (env : environment) (out : pyval) : prog unit :=
  fun w => if open_fails env || negb (out_dir w) then (Raise OSError, w)
           else if dump_fails env
                then (Raise (dump_exception env),
                      {| out_dir := out_dir w; out_file := Some Truncated;
                                        console := console w |})
                else (Ok tt, {| out_dir := out_dir w; out_file := Some (JsonDump out);
                                console := console w |}).

(** Lines 119-124. *)
Definition terms_sanity_check (env : environment) : prog unit :=
  try_except
    (terms <~ lift (get_json env TERMS_ENDPOINT None) ;;
     print (SayTermsExample (substring 0 200 (py_str terms))))
    (fun e => print (SayWarning TERMS_ENDPOINT e)).

Definition main (env : environment) : prog unit :=
  print SayFetchingTerms ;;;
  terms_sanity_check env ;;;
  print (SayFetching YEAR TERM MVP_SCHOOL MVP_SUBJECT) ;;;
  raw_courses <~ lift (fetch_courses env YEAR TERM MVP_SCHOOL MVP_SUBJECT) ;;
  n <~ lift (py_len raw_courses) ;;
  print (SayTransforming n) ;;;
  out <~ lift (transform_to_quacs_schema raw_courses) ;;
  mkdir_out_dir env ;;;
  write_out_file env out ;;;
  print SayWrote.

(** The module body (line 28) followed by the [__main__] guard. *)
Definition script (env : environment) : prog unit :=
  mkdir_out_dir env ;;; main env.

(** ** Shapes of inputs and outputs *)

Definition is_dict (v : pyval) : bool :=
  match v with PDict _ => true | _ => false end.

(** [v] is a list all of whose items satisfy [p]. *)
Definition list_of (p : pyval -> bool) (v : pyval) : bool :=
  match v with PList l => forallb p l | _ => false end.

(** The value under [k], when there is one, is a list of [p] items. *)
Definition nested_ok (p : pyval -> bool) (k : string) (d : list (string * pyval)) : bool :=
  match lookup k d with
  | None => true
  | Some v => list_of p v
  end.

Definition shaped_section (s : pyval) : bool :=
  match s with
  | PDict d => nested_ok is_dict "instructors" d && nested_ok is_dict "meetings" d
  | _ => false
  end.

Definition shaped_course (c : pyval) : bool :=
  match c with
  | PDict d => nested_ok shaped_section "sections" d
  | _ => false
  end.

(** A list of mappings whose nested collections, where present, are lists of
    mappings. *)
Definition well_shaped (raw_courses : pyval) : bool := list_of shaped_course raw_courses.

Fixpoint same_keys (ks : list string) (d : list (string * pyval)) : bool :=
  match ks, d with
  | [], [] => true
  | k :: ks', (k', _) :: d' => (k =? k')%string && same_keys ks' d'
  | _, _ => false
  end.

Definition meeting_keys : list string :=
  ["days"; "start"; "end"; "campus"; "building"; "room"; "modality"].
Definition section_keys : list string := ["section"; "instructors"; "meetings"].
Definition course_keys : list string :=
  ["id"; "subject"; "number"; "title"; "credits"; "sections"].

Definition meeting_schema (v : pyval) : bool :=
  match v with PDict d => same_keys meeting_keys d | _ => false end.

Definition is_list (v : pyval) : bool :=
  match v with PList _ => true | _ => false end.

Definition section_schema (v : pyval) : bool :=
  match v with
  | PDict d => same_keys section_keys d
               && is_list (get_or d "instructors" PNone)
               && list_of meeting_schema (get_or d "meetings" PNone)
  | _ => false
  end.

Definition is_str (v : pyval) : bool :=
  match v with PStr _ => true | _ => false end.

Definition course_schema (v : pyval) : bool :=
  match v with
  | PDict d => same_keys course_keys d
               && is_str (get_or d "id" PNone)
               && is_str (get_or d "number" PNone)
               && list_of section_schema (get_or d "sections" PNone)
  | _ => false
  end.

(** The fixed output shape: every key of every level is there. *)
Definition document_schema (v : pyval) : bool :=
  match v with
  | PDict d => same_keys ["courses"] d && list_of course_schema (get_or d "courses" PNone)
  | _ => false
  end.

(** A JSON number. *)
Definition is_number (v : pyval) : bool :=
  match v with PInt _ | PFloat _ => true | _ => false end.

(** The upstream keys each level reads. *)
Definition raw_course_keys : list string :=
  ["subjectCode"; "subject"; "courseNumber"; "code"; "catalogNumber"; "name"; "title";
   "credits"; "minCredits"; "sections"].
Definition raw_meeting_keys : list string :=
  ["days"; "pattern"; "startTime"; "endTime"; "campus"; "campusName"; "building";
   "buildingName"; "room"; "instructionMode"; "mode"].

Definition absent (ks : list string) (d : list (string * pyval)) : Prop :=
  forall k, In k ks -> lookup k d = None.

(** [d] without its bindings of [k]. *)
Definition remove_key (k : string) (d : list (string * pyval)) : list (string * pyval) :=
  filter (fun kv => negb (fst kv =? k)%string) d.

(** The candidate keys that are followed by another candidate or by a literal
    default, per level. *)
Definition course_chain_keys : list string :=
  ["subjectCode"; "subject"; "courseNumber"; "code"; "catalogNumber"; "name"; "title";
   "credits"; "minCredits"].
Definition section_chain_keys : list string := ["sectionCode"; "code"; "registrationNumber"].
Definition meeting_chain_keys : list string :=
  ["days"; "pattern"; "campus"; "building"; "room"; "instructionMode"; "mode"].


Definition raw_section_keys : list string :=
  ["sectionCode"; "code"; "registrationNumber"; "instructors"; "meetings"].

(** The value under [k], when there is one, is a JSON number. *)
Definition number_or_absent (k : string) (d : list (string * pyval)) : bool :=
  match lookup k d with
  | None => true
  | Some v => is_number v
  end.

(** The one-course input of the end-to-end scenario. *)
Definition scenario_course : pyval :=
  PDict [("subjectCode", PStr "CS"); ("courseNumber", PStr "101"); ("name", PStr "Intro");
         ("credits", PInt 4);
         ("sections",
          PList [PDict [("sectionCode", PStr "A");
                        ("instructors", PList [PDict [("name", PStr "J. Doe")]]);
                        ("meetings",
                         PList [PDict [("days", PStr "MWF"); ("startTime", PStr "09:00");
                                       ("endTime", PStr "10:15"); ("campus", PStr "Main");
                                       ("room", PStr "101")]])]])].

(** What every level gives when none of its upstream keys is there. *)
Definition default_meeting : pyval :=
  PDict [("days", PStr ""); ("start", PNone); ("end", PNone); ("campus", PNone);
         ("building", PNone); ("room", PStr ""); ("modality", PStr "")].
Definition default_section : pyval :=
  PDict [("section", PStr ""); ("instructors", PList []); ("meetings", PList [])].
Definition default_course : pyval :=
  PDict [("id", PStr ""); ("subject", PStr ""); ("number", PStr ""); ("title", PStr "");
         ("credits", PInt 0); ("sections", PList [])].

(** ** Runs of the driver *)

(** The line the terms check prints. *)
Definition terms_event (env : environment) : event :=
  match get_json env TERMS_ENDPOINT None with
  | Ok terms => SayTermsExample (substring 0 200 (py_str terms))
  | Raise e => SayWarning TERMS_ENDPOINT e
  end.

(** [env] with another answer to the terms request. *)
Definition with_terms_outcome (o : http_outcome) (env : environment) : environment :=
  {| net := fun url params =>
              if (url =? TERMS_ENDPOINT)%string then o else net env url params;
     mkdir_fails := mkdir_fails env;
     open_fails := open_fails env;
     dump_fails := dump_fails env;
     dump_exception := dump_exception env |}.

Definition COURSES_URL : string := BASE ++ "/v3/courses".
Definition courses_query : query :=
  Some [("year", PInt YEAR); ("term", PStr TERM); ("school", PStr MVP_SCHOOL);
        ("subject", PStr MVP_SUBJECT)].

(** The status codes [raise_for_status] rejects. *)
Definition error_status (status : Z) : bool := (400 <=? status) && (status <? 600).

(** The courses request meets a timeout, a connection failure or another
    exception of [requests.get], an error status, or a body [r.json()]
    raises on. *)
Definition courses_request_fails (env : environment) : Prop :=
  match net env COURSES_URL courses_query with
  | Failed _ => True
  | Response status body => error_status status = true \/ exists e, body = Raise e
  end.

(** What [main] does after the courses request, by the outcome of each step. *)
Definition after_fetch (env : environment) (w : world) (fetched : result pyval)
  : result unit * world :=
  match fetched with
  | Raise e => (Raise e, w)
  | Ok raw_courses =>
      match py_len raw_courses with
      | Raise e => (Raise e, w)
      | Ok n =>
          let w' := logged w [SayTransforming n] in
          match transform_to_quacs_schema raw_courses with
          | Raise e => (Raise e, w')
          | Ok out => (mkdir_out_dir env ;;; write_out_file env out ;;; print SayWrote) w'
          end
      end
  end.

(** Sample runs: a world with a file from an earlier run, and environments
    in which one of the two requests fails. *)
Definition earlier_world : world :=
  {| out_dir := true; out_file := Some (EarlierBytes "{}"); console := [] |}.

Definition courses_down : environment :=
  {| net := fun url _ => if (url =? TERMS_ENDPOINT)%string
                         then Response 200 (Ok (PList []))
                         else Response 503 (Raise JSONDecodeError);
     mkdir_fails := false; open_fails := false; dump_fails := false;
     dump_exception := OSError |}.

Definition terms_down : environment :=
  {| net := fun url _ => if (url =? TERMS_ENDPOINT)%string
                         then Failed Timeout
                         else Response 200 (Ok (PList [scenario_course]));
     mkdir_fails := false; open_fails := false; dump_fails := false;
     dump_exception := OSError |}.

(** ** Values that are formatted as text *)

(** The values of the subject and number chains of a course (lines 72-73). *)
Definition course_subject (d : list (string * pyval)) : pyval :=
  pick (pick (get_or d "subjectCode" PNone) (get_or d "subject" PNone)) (PStr "").
Definition course_number (d : list (string * pyval)) : pyval :=
  pick (pick (pick (get_or d "courseNumber" PNone) (get_or d "code" PNone))
             (get_or d "catalogNumber" PNone)) (PStr "").

(** A string, None, a boolean, a float, or an integer within the digit
    limit: no list and no dict. *)
Definition plain (v : pyval) : bool :=
  match v with
  | PInt n => int_prints n
  | PList _ | PDict _ => false
  | _ => true
  end.

(** An instructor with a truthy name, or with plain first and last name. *)
Definition plain_instructor (i : pyval) : bool :=
  match i with
  | PDict d => truthy (get_or d "name" PNone)
               || plain (get_or d "firstName" (PStr ""))
                  && plain (get_or d "lastName" (PStr ""))
  | _ => true
  end.

Definition plain_section (s : pyval) : bool :=
  match s with
  | PDict d => match get_or d "instructors" (PList []) with
               | PList l => forallb plain_instructor l
               | _ => true
               end
  | _ => true
  end.

Definition plain_course (c : pyval) : bool :=
  match c with
  | PDict d => plain (course_subject d) && plain (course_number d)
               && match get_or d "sections" (PList []) with
                  | PList l => forallb plain_section l
                  | _ => true
                  end
  | _ => true
  end.

(** Every value the transform formats as text is plain. *)
Definition plain_texts (raw_courses : pyval) : bool :=
  match raw_courses with
  | PList l => forallb plain_course l
  | _ => true
  end.

(** ** Inputs the transform runs on *)

(** [v] can be looped over and every item it yields satisfies [p]. *)
Definition iter_all (p : pyval -> bool) (v : pyval) : bool :=
  match py_iter v with
  | Ok items => forallb p items
  | Raise _ => false
  end.

Definition runs_section (s : pyval) : bool :=
  match s with
  | PDict d => iter_all is_dict (get_or d "instructors" (PList []))
               && iter_all is_dict (get_or d "meetings" (PList []))
  | _ => false
  end.

Definition runs_course (c : pyval) : bool :=
  match c with
  | PDict d => iter_all runs_section (get_or d "sections" (PList []))
  | _ => false
  end.

Definition runs_transform (raw_courses : pyval) : bool := iter_all runs_course raw_courses.

(** The upstream keys an instructor is read by. *)
Definition raw_instructor_keys : list string := ["name"; "firstName"; "lastName"].

(** Two dicts give the same answer to [get] for every key of [ks]. *)
Definition agree_on (ks : list string) (d d' : list (string * pyval)) : Prop :=
  forall k, In k ks -> lookup k d = lookup k d'.

Fixpoint all_space (s : string) : bool :=
  match s with
  | EmptyString => true
  | String c s' => is_space c && all_space s'
  end.

(** * Properties *)

(** ** The error monad and the loop *)

Lemma por_ok (a b : pyval) :
  Ok a or_else Ok b = Ok (pick a b).
Proof. unfold por, pick. destruct (truthy a); reflexivity. Qed.

Lemma por_falsy (a : pyval) (b : result pyval) :
  truthy a = false -> Ok a or_else b = b.
Proof. intros H. unfold por. rewrite H. reflexivity. Qed.

Lemma por_truthy (a : pyval) (b : result pyval) :
  truthy a = true -> Ok a or_else b = Ok a.
Proof. intros H. unfold por. rewrite H. reflexivity. Qed.

Lemma bind_ok_inv {A B} (m : result A) (k : A -> result B) (b : B) :
  (x <- m ;; k x) = Ok b -> exists a, m = Ok a /\ k a = Ok b.
Proof. destruct m as [a | e]; simpl; intros H; [eauto | discriminate]. Qed.

(** A property of the accumulator that every turn keeps holds at the end. *)
Lemma for_each_invariant {S} (P : S -> Prop) (body : pyval -> S -> result S) :
  (forall x a a', P a -> body x a = Ok a' -> P a') ->
  forall items acc r, P acc -> for_each items body acc = Ok r -> P r.
Proof.
  intros Hstep items. induction items as [| x rest IH]; simpl; intros acc r Hacc Hrun.
  - injection Hrun as <-. exact Hacc.
  - apply bind_ok_inv in Hrun as (a' & Hbody & Hrest).
    eapply IH; [eapply Hstep; eassumption | exact Hrest].
Qed.

(** A loop whose body succeeds on every item succeeds. *)
Lemma for_each_total {S} (body : pyval -> S -> result S) (items : list pyval) :
  (forall x, In x items -> forall a, exists a', body x a = Ok a') ->
  forall acc, exists r, for_each items body acc = Ok r.
Proof.
  induction items as [| x rest IH]; simpl; intros Hbody acc.
  - eauto.
  - destruct (Hbody x (or_introl eq_refl) acc) as (a' & ->). simpl.
    apply IH. intros y Hy. apply Hbody. right. exact Hy.
Qed.

(** A loop that appends one result per item. *)
Lemma for_each_append (f : pyval -> result pyval) (items : list pyval) :
  forall acc r,
  for_each items (fun x a => d <- f x ;; Ok (a ++ [d])%list) acc = Ok r ->
  exists ds, r = (acc ++ ds)%list /\ Forall2 (fun x d => f x = Ok d) items ds.
Proof.
  induction items as [| x rest IH]; simpl; intros acc r Hrun.
  - injection Hrun as <-. exists []. rewrite app_nil_r. split; constructor.
  - apply bind_ok_inv in Hrun as (a' & Hbody & Hrest).
    apply bind_ok_inv in Hbody as (d & Hd & Hret). injection Hret as <-.
    apply IH in Hrest as (ds & -> & Hall).
    exists (d :: ds). rewrite <- app_assoc. split; [reflexivity | constructor; assumption].
Qed.

(** ** What one turn of each loop produces *)

Lemma meeting_out_dict (d : list (string * pyval)) :
  meeting_out (PDict d) =
  Ok (PDict
        [("days", pick (pick (get_or d "days" PNone) (get_or d "pattern" PNone)) (PStr ""));
         ("start", get_or d "startTime" PNone);
         ("end", get_or d "endTime" PNone);
         ("campus", pick (get_or d "campus" PNone) (get_or d "campusName" PNone));
         ("building", pick (get_or d "building" PNone) (get_or d "buildingName" PNone));
         ("room", pick (get_or d "room" PNone) (PStr ""));
         ("modality", pick (pick (get_or d "instructionMode" PNone) (get_or d "mode" PNone))
                           (PStr ""))]).
Proof. unfold meeting_out, py_get. rewrite !por_ok. reflexivity. Qed.

Lemma py_format_ok_inv (v : pyval) (t : string) :
  py_format v = Ok t -> prints v = true /\ t = py_str v.
Proof.
  unfold py_format. destruct (prints v); [| discriminate].
  intros H. injection H as <-. auto.
Qed.

Lemma py_format_prints (v : pyval) : prints v = true -> py_format v = Ok (py_str v).
Proof. intros H. unfold py_format. rewrite H. reflexivity. Qed.

Lemma py_format_raises (v : pyval) (e : exn) :
  py_format v = Raise e -> prints v = false /\ e = ValueError.
Proof.
  unfold py_format. destruct (prints v); [discriminate |].
  intros H. injection H as <-. auto.
Qed.


Lemma plain_prints (v : pyval) : plain v = true -> prints v = true.
Proof. destruct v; simpl; auto; discriminate. Qed.

Lemma instructor_name_dict (d : list (string * pyval)) :
  instructor_name (PDict d) =
  if truthy (get_or d "name" PNone) then Ok (get_or d "name" PNone)
  else first_text <- py_format (get_or d "firstName" (PStr "")) ;;
       last_text <- py_format (get_or d "lastName" (PStr "")) ;;
       Ok (PStr (strip (first_text ++ " " ++ last_text))).
Proof. reflexivity. Qed.


Lemma section_out_inv (d : list (string * pyval)) (out : pyval) :
  section_out (PDict d) = Ok out ->
  exists ri rm instrs meetings,
    py_iter (get_or d "instructors" (PList [])) = Ok ri /\
    for_each ri instructor_step [] = Ok instrs /\
    py_iter (get_or d "meetings" (PList [])) = Ok rm /\
    for_each rm meeting_step [] = Ok meetings /\
    out = PDict [("section",
                  pick (pick (pick (get_or d "sectionCode" PNone) (get_or d "code" PNone))
                             (get_or d "registrationNumber" PNone)) (PStr ""));
                 ("instructors", PList instrs); ("meetings", PList meetings)].
Proof.
  unfold section_out, py_get. rewrite !por_ok. cbn [bind]. intros H.
  apply bind_ok_inv in H as (ri & Hri & H).
  apply bind_ok_inv in H as (instrs & Hinstrs & H).
  apply bind_ok_inv in H as (rm & Hrm & H).
  apply bind_ok_inv in H as (meetings & Hmeetings & H).
  injection H as <-. exists ri, rm, instrs, meetings. auto.
Qed.

Lemma course_out_inv (d : list (string * pyval)) (out : pyval) :
  course_out (PDict d) = Ok out ->
  exists ss sections,
    py_iter (get_or d "sections" (PList [])) = Ok ss /\
    for_each ss section_step [] = Ok sections /\
    let subject := pick (pick (get_or d "subjectCode" PNone) (get_or d "subject" PNone))
                        (PStr "") in
    let number := pick (pick (pick (get_or d "courseNumber" PNone) (get_or d "code" PNone))
                             (get_or d "catalogNumber" PNone)) (PStr "") in
    out = PDict [("id", PStr (strip (py_str subject ++ " " ++ py_str number)));
                 ("subject", subject);
                 ("number", PStr (py_str number));
                 ("title", pick (pick (get_or d "name" PNone) (get_or d "title" PNone))
                                (PStr ""));
                 ("credits", pick (pick (get_or d "credits" PNone)
                                        (get_or d "minCredits" PNone)) (PInt 0));
                 ("sections", PList sections)].
Proof.
  unfold course_out, py_get. rewrite !por_ok. cbn [bind]. intros H.
  apply bind_ok_inv in H as (ss & Hss & H).
  apply bind_ok_inv in H as (sections & Hsections & H).
  apply bind_ok_inv in H as (st & Hst & H). apply py_format_ok_inv in Hst as (_ & ->).
  apply bind_ok_inv in H as (nt & Hnt & H). apply py_format_ok_inv in Hnt as (_ & ->).
  apply bind_ok_inv in H as (ns & Hns & H). apply py_format_ok_inv in Hns as (_ & ->).
  injection H as <-. exists ss, sections. auto.
Qed.

(** A course whose dict is made has a subject and a number that convert to
    text. *)
Lemma course_out_prints (d : list (string * pyval)) (out : pyval) :
  course_out (PDict d) = Ok out ->
  prints (course_subject d) = true /\ prints (course_number d) = true.
Proof.
  unfold course_out, py_get. rewrite !por_ok. cbn [bind]. intros H.
  apply bind_ok_inv in H as (ss & Hss & H).
  apply bind_ok_inv in H as (sections & Hsections & H).
  apply bind_ok_inv in H as (st & Hst & H). apply py_format_ok_inv in Hst as (Hs & _).
  apply bind_ok_inv in H as (nt & Hnt & H). apply py_format_ok_inv in Hnt as (Hn & _).
  split; assumption.
Qed.

(** ** Every successful run has the output schema *)

Lemma only_dicts_have_get (v : pyval) (k : string) (default x : pyval) :
  py_get v k default = Ok x -> exists d, v = PDict d.
Proof. destruct v; simpl; intros H; try discriminate. eauto. Qed.

Lemma meeting_out_schema (m out : pyval) :
  meeting_out m = Ok out -> meeting_schema out = true.
Proof.
  intros H. assert (exists d, m = PDict d) as (d & ->).
  { destruct m; try discriminate H. eauto. }
  rewrite meeting_out_dict in H. injection H as <-. reflexivity.
Qed.

Lemma collected_all (p : pyval -> bool) (f : pyval -> result pyval) :
  (forall x out, f x = Ok out -> p out = true) ->
  forall items acc r,
  forallb p acc = true ->
  for_each items (fun x a => d <- f x ;; Ok (a ++ [d])%list) acc = Ok r ->
  forallb p r = true.
Proof.
  intros Hf items acc r Hacc Hrun.
  apply for_each_append in Hrun as (ds & -> & Hall).
  rewrite forallb_app, Hacc. simpl.
  induction Hall as [| x d xs ds' Hx _ IH]; simpl; [reflexivity |].
  rewrite (Hf _ _ Hx). exact IH.
Qed.

Lemma section_out_schema (s out : pyval) :
  section_out s = Ok out -> section_schema out = true.
Proof.
  intros H. assert (exists d, s = PDict d) as (d & ->).
  { destruct s; try discriminate H. eauto. }
  apply section_out_inv in H as (ri & rm & instrs & meetings & _ & _ & _ & Hm & ->).
  cbn. eapply (collected_all meeting_schema meeting_out meeting_out_schema); [| exact Hm].
  reflexivity.
Qed.

Lemma course_out_schema (c out : pyval) :
  course_out c = Ok out -> course_schema out = true.
Proof.
  intros H. assert (exists d, c = PDict d) as (d & ->).
  { destruct c; try discriminate H. eauto. }
  apply course_out_inv in H as (ss & sections & _ & Hs & ->).
  cbn. eapply (collected_all section_schema section_out section_out_schema); [| exact Hs].
  reflexivity.
Qed.

Lemma transform_schema (raw doc : pyval) :
  transform_to_quacs_schema raw = Ok doc -> document_schema doc = true.
Proof.
  unfold transform_to_quacs_schema. intros H.
  apply bind_ok_inv in H as (items & _ & H).
  apply bind_ok_inv in H as (out & Hout & H). injection H as <-.
  cbn. eapply (collected_all course_schema course_out course_out_schema); [| exact Hout].
  reflexivity.
Qed.

(** ** Well-shaped input never raises *)

Lemma nested_ok_list (p : pyval -> bool) (k : string) (d : list (string * pyval)) :
  nested_ok p k d = true ->
  exists l, get_or d k (PList []) = PList l /\ forallb p l = true.
Proof.
  unfold nested_ok, get_or. destruct (lookup k d) as [v |].
  - destruct v; simpl; try discriminate. eauto.
  - intros _. exists []. auto.
Qed.

Lemma forallb_both (p q : pyval -> bool) (l : list pyval) :
  forallb p l = true -> forallb q l = true -> forallb (fun x => p x && q x) l = true.
Proof.
  induction l as [| x l IH]; simpl; [reflexivity |]. intros Hp Hq.
  apply andb_prop in Hp as (Hp & Hp'). apply andb_prop in Hq as (Hq & Hq').
  rewrite Hp, Hq. simpl. apply IH; assumption.
Qed.

Lemma instructor_step_total (i : pyval) (acc : list pyval) :
  is_dict i && plain_instructor i = true -> exists acc', instructor_step i acc = Ok acc'.
Proof.
  destruct i as [| | | | | | d]; try discriminate. cbn [is_dict plain_instructor andb].
  intros H. unfold instructor_step. rewrite instructor_name_dict.
  destruct (truthy (get_or d "name" PNone)); [cbn [bind]; eauto |].
  apply andb_prop in H as (Hf & Hl).
  rewrite (py_format_prints _ (plain_prints _ Hf)), (py_format_prints _ (plain_prints _ Hl)).
  cbn [bind]. eauto.
Qed.

Lemma meeting_step_total (m : pyval) (acc : list pyval) :
  is_dict m = true -> exists acc', meeting_step m acc = Ok acc'.
Proof.
  destruct m; try discriminate. intros _.
  unfold meeting_step. rewrite meeting_out_dict. simpl. eauto.
Qed.

Lemma loop_total {S} (p : pyval -> bool) (body : pyval -> S -> result S) :
  (forall x a, p x = true -> exists a', body x a = Ok a') ->
  forall items acc, forallb p items = true -> exists r, for_each items body acc = Ok r.
Proof.
  intros Hbody items acc Hall. apply for_each_total.
  intros x Hx a. apply Hbody. rewrite forallb_forall in Hall. auto.
Qed.

Lemma section_out_total (s : pyval) :
  shaped_section s && plain_section s = true -> exists out, section_out s = Ok out.
Proof.
  destruct s as [| | | | | | d]; try discriminate. cbn [shaped_section plain_section].
  intros H. apply andb_prop in H as (H & Hplain). apply andb_prop in H as (Hi & Hm).
  apply nested_ok_list in Hi as (li & Hli & Hpi).
  apply nested_ok_list in Hm as (lm & Hlm & Hpm).
  rewrite Hli in Hplain.
  destruct (loop_total _ instructor_step instructor_step_total li []
              (forallb_both _ _ _ Hpi Hplain)) as (instrs & Hinstrs).
  destruct (loop_total is_dict meeting_step meeting_step_total lm [] Hpm)
    as (meetings & Hmeetings).
  unfold section_out, py_get. rewrite !por_ok. cbn [bind].
  rewrite Hli. cbn [py_iter bind]. rewrite Hinstrs. cbn [bind].
  rewrite Hlm. cbn [py_iter bind]. rewrite Hmeetings. cbn [bind]. eauto.
Qed.

Lemma section_step_total (s : pyval) (acc : list pyval) :
  shaped_section s && plain_section s = true -> exists acc', section_step s acc = Ok acc'.
Proof.
  intros H. unfold section_step. destruct (section_out_total s H) as (out & ->).
  simpl. eauto.
Qed.

Lemma course_out_total (c : pyval) :
  shaped_course c && plain_course c = true -> exists out, course_out c = Ok out.
Proof.
  destruct c as [| | | | | | d]; try discriminate. cbn [shaped_course plain_course].
  intros H. apply andb_prop in H as (H & Hplain).
  apply andb_prop in Hplain as (Hplain & Hsecs). apply andb_prop in Hplain as (Hs & Hn).
  apply nested_ok_list in H as (ls & Hls & Hps). rewrite Hls in Hsecs.
  destruct (loop_total _ section_step section_step_total ls []
              (forallb_both _ _ _ Hps Hsecs)) as (sections & Hsections).
  unfold course_out, py_get. rewrite !por_ok. cbn [bind].
  rewrite Hls. cbn [py_iter bind]. rewrite Hsections. cbn [bind].
  fold (course_subject d). fold (course_number d).
  rewrite (py_format_prints _ (plain_prints _ Hs)), (py_format_prints _ (plain_prints _ Hn)).
  cbn [bind]. eauto.
Qed.

Lemma course_step_total (c : pyval) (acc : list pyval) :
  shaped_course c && plain_course c = true -> exists acc', course_step c acc = Ok acc'.
Proof.
  intros H. unfold course_step. destruct (course_out_total c H) as (out & ->).
  simpl. eauto.
Qed.

(** ** Defaults *)

Lemma absent_get_or (ks : list string) (d : list (string * pyval)) :
  absent ks d -> forall k, In k ks -> forall default, get_or d k default = default.
Proof. intros H k Hk default. unfold get_or. rewrite (H k Hk). reflexivity. Qed.

Lemma meeting_defaults (d : list (string * pyval)) :
  absent raw_meeting_keys d -> meeting_out (PDict d) = Ok default_meeting.
Proof.
  intros H. rewrite meeting_out_dict.
  rewrite !(absent_get_or _ _ H) by (simpl; tauto). reflexivity.
Qed.

Lemma section_defaults (d : list (string * pyval)) :
  absent raw_section_keys d -> section_out (PDict d) = Ok default_section.
Proof.
  intros H. unfold section_out, py_get.
  rewrite !(absent_get_or _ _ H) by (simpl; tauto). reflexivity.
Qed.

Lemma course_defaults (d : list (string * pyval)) :
  absent raw_course_keys d -> course_out (PDict d) = Ok default_course.
Proof.
  intros H. unfold course_out, py_get.
  rewrite !(absent_get_or _ _ H) by (simpl; tauto). reflexivity.
Qed.

Lemma lookup_cons_other (k k' : string) (v : pyval) (d : list (string * pyval)) :
  (k' =? k)%string = false -> lookup k' ((k, v) :: d) = lookup k' d.
Proof. intros H. simpl. rewrite H. reflexivity. Qed.

Lemma get_or_cons_other (k k' : string) (v default : pyval) (d : list (string * pyval)) :
  (k' =? k)%string = false -> get_or ((k, v) :: d) k' default = get_or d k' default.
Proof. intros H. unfold get_or. rewrite lookup_cons_other by exact H. reflexivity. Qed.

Lemma get_or_absent_as_empty (k : string) (d : list (string * pyval)) :
  lookup k d = None -> get_or ((k, PList []) :: d) k (PList []) = get_or d k (PList []).
Proof. intros H. unfold get_or. simpl. rewrite String.eqb_refl, H. reflexivity. Qed.

(** ** C1 *)

(** C1, as stated, fails: a nested collection that is present and is not a
    list of mappings makes the transform raise, as does a course that is not
    a mapping, and as does a course number that is an integer of more than
    4300 digits. *)
Lemma transform_raises_on_wrong_shape :
  transform_to_quacs_schema (PList [PDict [("sections", PNone)]]) = Raise TypeError
  /\ transform_to_quacs_schema (PList [PDict [("sections", PInt 3)]]) = Raise TypeError
  /\ transform_to_quacs_schema (PList [PDict [("sections", PStr "A1")]])
     = Raise AttributeError
  /\ transform_to_quacs_schema
       (PList [PDict [("sections", PList [PDict [("instructors", PList [PStr "J. Doe"])]])]])
     = Raise AttributeError
  /\ transform_to_quacs_schema
       (PList [PDict [("sections", PList [PDict [("meetings", PBool true)]])]])
     = Raise TypeError
  /\ transform_to_quacs_schema (PList [PStr "CS 101"]) = Raise AttributeError
  /\ transform_to_quacs_schema (PList [PDict [("courseNumber", PInt (10 ^ 4300))]])
     = Raise ValueError.
Proof. repeat split; vm_compute; reflexivity. Qed.

(** C1 (amended): on a list of mappings whose 'sections', 'instructors' and
    'meetings' values, where present, are lists of mappings, and whose values
    formatted as text (subject and number of a course, first and last name
    of an instructor without a truthy name) are strings, None, booleans,
    floats or integers of at most 4300 digits, the transform does not raise
    and produces a document of the output schema; a nested collection that
    is absent is treated as the empty list. *)
Theorem transform_total_on_well_shaped (raw : pyval) :
  well_shaped raw = true ->
  plain_texts raw = true ->
  (exists doc, transform_to_quacs_schema raw = Ok doc /\ document_schema doc = true)
  /\ (forall d, lookup "sections" d = None ->
        course_out (PDict d) = course_out (PDict (("sections", PList []) :: d)))
  /\ (forall d, lookup "instructors" d = None ->
        section_out (PDict d) = section_out (PDict (("instructors", PList []) :: d)))
  /\ (forall d, lookup "meetings" d = None ->
        section_out (PDict d) = section_out (PDict (("meetings", PList []) :: d))).
Proof.
  intros Hraw Hplain. split; [| split; [| split]].
  - destruct raw as [| | | | | l |]; try discriminate.
    cbn [well_shaped list_of plain_texts] in Hraw, Hplain.
    destruct (loop_total _ course_step course_step_total l []
                (forallb_both _ _ _ Hraw Hplain)) as (out & Hout).
    assert (transform_to_quacs_schema (PList l) = Ok (PDict [("courses", PList out)])) as Hrun.
    { unfold transform_to_quacs_schema. cbn [py_iter bind]. rewrite Hout. reflexivity. }
    eexists. split; [exact Hrun |]. exact (transform_schema _ _ Hrun).
  - intros d Hd. unfold course_out, py_get.
    rewrite (get_or_absent_as_empty _ _ Hd).
    rewrite !get_or_cons_other by reflexivity. reflexivity.
  - intros d Hd. unfold section_out, py_get.
    rewrite (get_or_absent_as_empty _ _ Hd).
    rewrite !get_or_cons_other by reflexivity. reflexivity.
  - intros d Hd. unfold section_out, py_get.
    rewrite (get_or_absent_as_empty _ _ Hd).
    rewrite !get_or_cons_other by reflexivity. reflexivity.
Qed.

Lemma transform_total_on_well_shaped_witness :
  well_shaped (PList [scenario_course; PDict [("courseNumber", PInt 101)]]) = true
  /\ plain_texts (PList [scenario_course; PDict [("courseNumber", PInt 101)]]) = true
  /\ exists doc,
       transform_to_quacs_schema (PList [scenario_course; PDict [("courseNumber", PInt 101)]])
       = Ok doc
       /\ document_schema doc = true.
Proof.
  split; [reflexivity |]. split; [reflexivity |].
  exact (proj1 (transform_total_on_well_shaped
                  (PList [scenario_course; PDict [("courseNumber", PInt 101)]])
                  eq_refl eq_refl)).
Defined.

(** ** C2 *)

(** C2: a raw course with none of the upstream keys, the empty mapping in
    particular, gives subject "", number "", title "", credits 0 and no
    sections. *)
Theorem course_without_fields (d : list (string * pyval)) :
  absent raw_course_keys d ->
  course_out (PDict d)
  = Ok (PDict [("id", PStr ""); ("subject", PStr ""); ("number", PStr "");
               ("title", PStr ""); ("credits", PInt 0); ("sections", PList [])])
  /\ transform_to_quacs_schema (PList [PDict d])
     = Ok (PDict [("courses",
                   PList [PDict [("id", PStr ""); ("subject", PStr ""); ("number", PStr "");
                                 ("title", PStr ""); ("credits", PInt 0);
                                 ("sections", PList [])]])]).
Proof.
  intros H. pose proof (course_defaults d H) as Hc. split; [exact Hc |].
  unfold transform_to_quacs_schema. cbn [py_iter bind for_each course_step].
  unfold course_step. rewrite Hc. reflexivity.
Qed.

Lemma course_without_fields_witness :
  course_out (PDict []) = Ok default_course
  /\ transform_to_quacs_schema (PList [PDict []])
     = Ok (PDict [("courses", PList [default_course])]).
Proof.
  assert (absent raw_course_keys []) as H by (intros k _; reflexivity).
  exact (course_without_fields [] H).
Defined.

(** ** C3 *)

(** C3: the dict made for a raw meeting has the seven keys days, start, end,
    campus, building, room and modality whatever keys the input has, with
    "" or None where the input has none; sections and courses default the
    same way, and every document the transform returns has every key of the
    output schema at every level. *)
Theorem output_keys_always_present :
  (forall d, exists days start end_ campus building room modality,
      meeting_out (PDict d)
      = Ok (PDict [("days", days); ("start", start); ("end", end_); ("campus", campus);
                   ("building", building); ("room", room); ("modality", modality)]))
  /\ (forall d, absent raw_meeting_keys d ->
        meeting_out (PDict d)
        = Ok (PDict [("days", PStr ""); ("start", PNone); ("end", PNone);
                     ("campus", PNone); ("building", PNone); ("room", PStr "");
                     ("modality", PStr "")]))
  /\ (forall d, absent raw_section_keys d ->
        section_out (PDict d)
        = Ok (PDict [("section", PStr ""); ("instructors", PList []);
                     ("meetings", PList [])]))
  /\ (forall d, absent raw_course_keys d ->
        course_out (PDict d)
        = Ok (PDict [("id", PStr ""); ("subject", PStr ""); ("number", PStr "");
                     ("title", PStr ""); ("credits", PInt 0); ("sections", PList [])]))
  /\ (forall raw doc, transform_to_quacs_schema raw = Ok doc -> document_schema doc = true).
Proof.
  split; [| split; [| split; [| split]]].
  - intros d. rewrite meeting_out_dict. do 7 eexists. reflexivity.
  - exact meeting_defaults.
  - exact section_defaults.
  - exact course_defaults.
  - exact transform_schema.
Qed.

Lemma output_keys_always_present_witness :
  meeting_out (PDict [("rooms", PStr "101")])
  = Ok (PDict [("days", PStr ""); ("start", PNone); ("end", PNone);
               ("campus", PNone); ("building", PNone); ("room", PStr "");
               ("modality", PStr "")])
  /\ document_schema
       (PDict [("courses",
                PList [PDict [("id", PStr ""); ("subject", PStr ""); ("number", PStr "");
                              ("title", PStr ""); ("credits", PInt 0);
                              ("sections", PList [])]])]) = true.
Proof.
  destruct output_keys_always_present as (_ & Hm & _ & _ & Hdoc). split.
  - apply Hm. intros k Hk. simpl in Hk.
    repeat (destruct Hk as [<- | Hk]; [reflexivity |]). contradiction.
  - apply (Hdoc (PList [PDict []])). reflexivity.
Defined.

(** ** C5 *)

(** C5: the id of the output course is its subject, a space and its number,
    trimmed, where number is [str] of the looked-up course number; "CS" and
    101 give "CS 101", "" and "" give "". *)
Theorem course_id_is_trimmed_subject_number (d : list (string * pyval)) (out : pyval) :
  course_out (PDict d) = Ok out ->
  let subject := pick (pick (get_or d "subjectCode" PNone) (get_or d "subject" PNone))
                      (PStr "") in
  let number := pick (pick (pick (get_or d "courseNumber" PNone) (get_or d "code" PNone))
                           (get_or d "catalogNumber" PNone)) (PStr "") in
  exists o,
    out = PDict o
    /\ lookup "subject" o = Some subject
    /\ lookup "number" o = Some (PStr (py_str number))
    /\ lookup "id" o = Some (PStr (strip (py_str subject ++ " " ++ py_str number)))
    /\ course_out (PDict [("subjectCode", PStr "CS"); ("courseNumber", PInt 101)])
       = Ok (PDict [("id", PStr "CS 101"); ("subject", PStr "CS"); ("number", PStr "101");
                    ("title", PStr ""); ("credits", PInt 0); ("sections", PList [])])
    /\ course_out (PDict [("subjectCode", PStr ""); ("courseNumber", PStr "")])
       = Ok (PDict [("id", PStr ""); ("subject", PStr ""); ("number", PStr "");
                    ("title", PStr ""); ("credits", PInt 0); ("sections", PList [])]).
Proof.
  intros H. apply course_out_inv in H as (ss & sections & _ & _ & ->).
  eexists. split; [reflexivity |]. repeat split; reflexivity.
Qed.

Lemma course_id_is_trimmed_subject_number_witness :
  exists o,
    PDict [("id", PStr "CS 101"); ("subject", PStr "CS"); ("number", PStr "101");
           ("title", PStr ""); ("credits", PInt 0); ("sections", PList [])] = PDict o
    /\ lookup "subject" o = Some (PStr "CS")
    /\ lookup "number" o = Some (PStr "101")
    /\ lookup "id" o = Some (PStr "CS 101").
Proof.
  destruct (course_id_is_trimmed_subject_number
              [("subjectCode", PStr "CS"); ("courseNumber", PInt 101)] _ eq_refl)
    as (o & Ho & Hs & Hn & Hid & _).
  exists o. split; [exact Ho |]. split; [exact Hs |]. split; [exact Hn | exact Hid].
Defined.

(** ** C6 *)

(** C6: the end-to-end scenario; one course "CS 101" with one section "A",
    one instructor "J. Doe" and one meeting MWF 09:00-10:15 whose modality
    is "". *)
Theorem scenario_document :
  transform_to_quacs_schema (PList [scenario_course])
  = Ok (PDict
          [("courses",
            PList
              [PDict
                 [("id", PStr "CS 101"); ("subject", PStr "CS"); ("number", PStr "101");
                  ("title", PStr "Intro"); ("credits", PInt 4);
                  ("sections",
                   PList
                     [PDict
                        [("section", PStr "A");
                         ("instructors", PList [PStr "J. Doe"]);
                         ("meetings",
                          PList
                            [PDict
                               [("days", PStr "MWF"); ("start", PStr "09:00");
                                ("end", PStr "10:15"); ("campus", PStr "Main");
                                ("building", PNone); ("room", PStr "101");
                                ("modality", PStr "")]])]])]])]).
Proof. reflexivity. Qed.

(** ** C7 *)

(** C7, as stated, fails: credits given as text stay text. *)
Lemma credits_may_be_text :
  course_out (PDict [("credits", PStr "4")])
  = Ok (PDict [("id", PStr ""); ("subject", PStr ""); ("number", PStr "");
               ("title", PStr ""); ("credits", PStr "4"); ("sections", PList [])])
  /\ is_number (PStr "4") = false.
Proof. split; reflexivity. Qed.

(** C7 (amended): the credits of the output course is the first truthy value
    of 'credits' and 'minCredits', as it is, and the integer 0 when there is
    none; it is a number whenever each of the two keys is absent or holds a
    number. *)
Theorem credits_first_truthy_or_zero (d : list (string * pyval)) (out : pyval) :
  course_out (PDict d) = Ok out ->
  exists o credits,
    out = PDict o
    /\ lookup "credits" o = Some credits
    /\ credits = (if truthy (get_or d "credits" PNone) then get_or d "credits" PNone
                  else if truthy (get_or d "minCredits" PNone)
                       then get_or d "minCredits" PNone
                       else PInt 0)
    /\ (lookup "credits" d = None -> lookup "minCredits" d = None -> credits = PInt 0)
    /\ (number_or_absent "credits" d = true -> number_or_absent "minCredits" d = true ->
        is_number credits = true).
Proof.
  intros H. apply course_out_inv in H as (ss & sections & _ & _ & ->).
  eexists. eexists. split; [reflexivity |]. split; [reflexivity |].
  unfold pick. split; [| split].
  - generalize (get_or d "credits" PNone) (get_or d "minCredits" PNone). intros c m.
    destruct (truthy c) eqn:Hc; [rewrite Hc; reflexivity |].
    simpl. destruct (truthy m); reflexivity.
  - unfold get_or. intros -> ->. reflexivity.
  - unfold number_or_absent, get_or.
    destruct (lookup "credits" d) as [c |], (lookup "minCredits" d) as [m |];
      simpl; intros Hc Hm;
      repeat match goal with |- context [truthy ?v] => destruct (truthy v) eqn:? end;
      auto.
Qed.

Lemma credits_first_truthy_or_zero_witness :
  exists o credits,
    PDict [("id", PStr ""); ("subject", PStr ""); ("number", PStr ""); ("title", PStr "");
           ("credits", PFloat "1.5"); ("sections", PList [])] = PDict o
    /\ lookup "credits" o = Some credits
    /\ credits = PFloat "1.5"
    /\ is_number credits = true.
Proof.
  destruct (credits_first_truthy_or_zero
              [("credits", PInt 0); ("minCredits", PFloat "1.5")] _ eq_refl)
    as (o & credits & Ho & Hl & Hc & _ & Hn).
  exists o, credits. repeat split; try assumption. apply Hn; reflexivity.
Defined.

(** ** C4 *)




(** ** C10 *)

Lemma lookup_remove_same (k : string) (d : list (string * pyval)) :
  lookup k (remove_key k d) = None.
Proof.
  induction d as [| (k', v) d IH]; simpl; [reflexivity |].
  destruct (k' =? k)%string eqn:E; simpl; [exact IH |].
  rewrite String.eqb_sym, E. exact IH.
Qed.

Lemma lookup_remove_other (k k' : string) (d : list (string * pyval)) :
  (k' =? k)%string = false -> lookup k' (remove_key k d) = lookup k' d.
Proof.
  intros Hne. induction d as [| (k0, v) d IH]; simpl; [reflexivity |].
  destruct (k0 =? k)%string eqn:E; simpl.
  - apply String.eqb_eq in E. subst k0. rewrite Hne. exact IH.
  - rewrite IH. reflexivity.
Qed.

Lemma get_or_remove_same (k : string) (default : pyval) (d : list (string * pyval)) :
  get_or (remove_key k d) k default = default.
Proof. unfold get_or. rewrite lookup_remove_same. reflexivity. Qed.

Lemma get_or_remove_other (k k' : string) (default : pyval) (d : list (string * pyval)) :
  (k' =? k)%string = false -> get_or (remove_key k d) k' default = get_or d k' default.
Proof. intros H. unfold get_or. rewrite lookup_remove_other by exact H. reflexivity. Qed.

Lemma get_or_present (k : string) (v default : pyval) (d : list (string * pyval)) :
  lookup k d = Some v -> get_or d k default = v.
Proof. intros H. unfold get_or. rewrite H. reflexivity. Qed.

Lemma pick_skip_l (v b : pyval) : truthy v = false -> pick v b = b.
Proof. intros H. unfold pick. rewrite H. reflexivity. Qed.

Lemma pick_skip_r (a v b : pyval) : truthy v = false -> pick (pick a v) b = pick a b.
Proof.
  intros H. unfold pick. destruct (truthy a) eqn:Ha; [rewrite Ha | rewrite H]; reflexivity.
Qed.

(** Both sides of a "falsy counts as absent" equation, brought to the same
    chain: the falsy value [v] on the left and [None] on the right drop out. *)
Ltac drop_candidate k v Hk Hv :=
  rewrite ?(get_or_remove_same k);
  rewrite ?(get_or_remove_other k) by reflexivity;
  rewrite ?(get_or_present k v _ _ Hk);
  rewrite ?(pick_skip_r _ v), ?(pick_skip_l v) by exact Hv;
  rewrite ?(pick_skip_r _ PNone), ?(pick_skip_l PNone) by reflexivity;
  reflexivity.

Ltac each_key Hin :=
  simpl in Hin;
  repeat (destruct Hin as [<- | Hin]; [| try contradiction]).

(** C10, as stated, fails for the campus and building chains, which end in a
    candidate and not in a literal: a falsy last candidate is the result,
    where an absent one gives None. *)
Lemma falsy_last_candidate_is_kept :
  meeting_out (PDict [("campusName", PStr "")])
  = Ok (PDict [("days", PStr ""); ("start", PNone); ("end", PNone);
               ("campus", PStr ""); ("building", PNone); ("room", PStr "");
               ("modality", PStr "")])
  /\ meeting_out (PDict (remove_key "campusName" [("campusName", PStr "")]))
     = Ok (PDict [("days", PStr ""); ("start", PNone); ("end", PNone);
                  ("campus", PNone); ("building", PNone); ("room", PStr "");
                  ("modality", PStr "")])
  /\ meeting_out (PDict [("building", PStr ""); ("buildingName", PInt 0)])
     = Ok (PDict [("days", PStr ""); ("start", PNone); ("end", PNone);
                  ("campus", PNone); ("building", PInt 0); ("room", PStr "");
                  ("modality", PStr "")]).
Proof. repeat split; reflexivity. Qed.

(** C10 (amended): in every chain, a candidate that is followed by another
    candidate or by a literal default and whose value is present but falsy
    is skipped as if its key were absent; these are all the candidates of
    the subject, number, title, credits, section code, days, room and
    modality chains, 'name' of an instructor, and the first candidate of the
    campus and building chains. A courseNumber of 0 gives number "", and an
    instructor with an empty 'name' gets the name derived from first and
    last name. *)
Theorem falsy_candidate_counts_as_absent :
  (forall k v d, lookup k d = Some v -> truthy v = false -> In k course_chain_keys ->
      course_out (PDict d) = course_out (PDict (remove_key k d)))
  /\ (forall k v d, lookup k d = Some v -> truthy v = false -> In k section_chain_keys ->
        section_out (PDict d) = section_out (PDict (remove_key k d)))
  /\ (forall k v d, lookup k d = Some v -> truthy v = false -> In k meeting_chain_keys ->
        meeting_out (PDict d) = meeting_out (PDict (remove_key k d)))
  /\ (forall v d, lookup "name" d = Some v -> truthy v = false ->
        instructor_name (PDict d) = instructor_name (PDict (remove_key "name" d)))
  /\ course_out (PDict [("courseNumber", PInt 0)])
     = Ok (PDict [("id", PStr ""); ("subject", PStr ""); ("number", PStr "");
                  ("title", PStr ""); ("credits", PInt 0); ("sections", PList [])])
  /\ instructor_name
       (PDict [("name", PStr ""); ("firstName", PStr "A."); ("lastName", PStr "Smith")])
     = Ok (PStr "A. Smith").
Proof.
  split; [| split; [| split; [| split; [| split; reflexivity]]]].
  - intros k v d Hk Hv Hin. unfold course_out, py_get. rewrite !por_ok. cbn [bind].
    each_key Hin; drop_candidate ltac:(lazymatch type of Hk with lookup ?k _ = _ => k end) v Hk Hv.
  - intros k v d Hk Hv Hin. unfold section_out, py_get. rewrite !por_ok. cbn [bind].
    each_key Hin; drop_candidate ltac:(lazymatch type of Hk with lookup ?k _ = _ => k end) v Hk Hv.
  - intros k v d Hk Hv Hin. rewrite !meeting_out_dict.
    each_key Hin; drop_candidate ltac:(lazymatch type of Hk with lookup ?k _ = _ => k end) v Hk Hv.
  - intros v d Hk Hv. rewrite !instructor_name_dict.
    rewrite (get_or_remove_same "name").
    rewrite !(get_or_remove_other "name") by reflexivity.
    rewrite (get_or_present "name" v _ _ Hk), Hv. reflexivity.
Qed.

Lemma falsy_candidate_counts_as_absent_witness :
  course_out (PDict [("credits", PStr ""); ("minCredits", PInt 3)])
  = course_out (PDict (remove_key "credits" [("credits", PStr ""); ("minCredits", PInt 3)]))
  /\ meeting_out (PDict [("campus", PNone); ("campusName", PStr "Main")])
     = meeting_out (PDict (remove_key "campus"
                             [("campus", PNone); ("campusName", PStr "Main")])).
Proof.
  destruct falsy_candidate_counts_as_absent as (Hcourse & _ & Hmeeting & _). split.
  - apply (Hcourse "credits" (PStr "")); [reflexivity | reflexivity |].
    simpl. tauto.
  - apply (Hmeeting "campus" PNone); [reflexivity | reflexivity |].
    simpl. tauto.
Defined.

(** ** The driver *)

Lemma logged_logged (w : world) (a b : list event) :
  logged (logged w a) b = logged w (a ++ b).
Proof. unfold logged. simpl. rewrite app_assoc. reflexivity. Qed.

Lemma terms_sanity_check_logs (env : environment) (w : world) :
  terms_sanity_check env w = (Ok tt, logged w [terms_event env]).
Proof.
  unfold terms_sanity_check, try_except, pbind, lift, print, terms_event.
  destruct (get_json env TERMS_ENDPOINT None); reflexivity.
Qed.

Lemma fetch_courses_request (env : environment) :
  fetch_courses env YEAR TERM MVP_SCHOOL MVP_SUBJECT
  = get_json env COURSES_URL courses_query.
Proof. reflexivity. Qed.

Lemma main_run (env : environment) (w : world) :
  main env w
  = after_fetch env
      (logged w [SayFetchingTerms; terms_event env;
                 SayFetching YEAR TERM MVP_SCHOOL MVP_SUBJECT])
      (fetch_courses env YEAR TERM MVP_SCHOOL MVP_SUBJECT).
Proof.
  unfold main, pbind at 1. unfold print at 1. unfold pbind at 1.
  rewrite terms_sanity_check_logs. unfold pbind at 1. unfold print at 1.
  rewrite !logged_logged. cbn [app].
  unfold after_fetch, pbind at 1, lift at 1.
  destruct (fetch_courses env YEAR TERM MVP_SCHOOL MVP_SUBJECT) as [raw | e];
    [| reflexivity].
  unfold pbind at 1, lift at 1. destruct (py_len raw) as [n | e]; [| reflexivity].
  unfold pbind at 1, print at 1. unfold pbind at 1, lift at 1.
  destruct (transform_to_quacs_schema raw) as [out | e]; reflexivity.
Qed.

Lemma failing_request_raises (env : environment) :
  courses_request_fails env ->
  exists e, fetch_courses env YEAR TERM MVP_SCHOOL MVP_SUBJECT = Raise e.
Proof.
  unfold courses_request_fails. rewrite fetch_courses_request. unfold get_json.
  destruct (net env COURSES_URL courses_query) as [e | status body]; [eauto |].
  fold (error_status status). intros [-> | (e & ->)]; [eauto |].
  destruct (error_status status); eauto.
Qed.

Lemma main_aborts_on_fetch_failure (env : environment) (w : world) (e : exn) :
  fetch_courses env YEAR TERM MVP_SCHOOL MVP_SUBJECT = Raise e ->
  main env w = (Raise e, logged w [SayFetchingTerms; terms_event env;
                                   SayFetching YEAR TERM MVP_SCHOOL MVP_SUBJECT]).
Proof. intros H. rewrite main_run, H. reflexivity. Qed.

(** ** C8 *)

(** C8: when the courses fetch fails (timeout, connection failure or another
    exception of the request, error status, or a body that is not JSON),
    [main] ends with that exception
    before the mkdir and the write: the output file is what it was before
    the run, whether absent or present. *)
Theorem courses_fetch_failure_writes_nothing (env : environment) (w : world) :
  (courses_request_fails env ->
   exists e, fetch_courses env YEAR TERM MVP_SCHOOL MVP_SUBJECT = Raise e)
  /\ (forall e, fetch_courses env YEAR TERM MVP_SCHOOL MVP_SUBJECT = Raise e ->
        fst (main env w) = Raise e
        /\ out_file (snd (main env w)) = out_file w
        /\ out_dir (snd (main env w)) = out_dir w
        /\ (exists e', fst (script env w) = Raise e')
        /\ out_file (snd (script env w)) = out_file w).
Proof.
  split; [apply failing_request_raises |].
  intros e H. rewrite (main_aborts_on_fetch_failure env w e H).
  split; [reflexivity |]. split; [reflexivity |]. split; [reflexivity |].
  unfold script, pbind, mkdir_out_dir. destruct (mkdir_fails env).
  - split; [exists OSError |]; reflexivity.
  - rewrite (main_aborts_on_fetch_failure env _ e H). split; [exists e |]; reflexivity.
Qed.

Lemma courses_fetch_failure_writes_nothing_witness :
  courses_request_fails courses_down
  /\ fst (main courses_down earlier_world) = Raise (HTTPError 503)
  /\ out_file (snd (main courses_down earlier_world)) = Some (EarlierBytes "{}").
Proof.
  split; [left; reflexivity |].
  destruct (proj2 (courses_fetch_failure_writes_nothing courses_down earlier_world)
              (HTTPError 503) eq_refl) as (Hres & Hfile & _).
  split; assumption.
Defined.

(** ** C9 *)

Lemma write_steps_ignore_console (env env' : environment) (w w' : world) (out : pyval) :
  mkdir_fails env' = mkdir_fails env -> open_fails env' = open_fails env ->
  dump_fails env' = dump_fails env -> dump_exception env' = dump_exception env ->
  out_dir w' = out_dir w -> out_file w' = out_file w ->
  let run := (mkdir_out_dir env ;;; write_out_file env out ;;; print SayWrote) w in
  let run' := (mkdir_out_dir env' ;;; write_out_file env' out ;;; print SayWrote) w' in
  fst run' = fst run /\ out_file (snd run') = out_file (snd run)
  /\ out_dir (snd run') = out_dir (snd run).
Proof.
  intros Hm Ho Hd He Hdir Hfile.
  unfold pbind, mkdir_out_dir, write_out_file, print, logged.
  rewrite Hm, Ho, Hd, He. simpl.
  destruct (mkdir_fails env); simpl; [auto |].
  destruct (open_fails env); simpl; [auto |].
  destruct (dump_fails env); simpl; auto.
Qed.

Lemma after_fetch_ignores_console (env env' : environment) (w w' : world)
  (fetched : result pyval) :
  mkdir_fails env' = mkdir_fails env -> open_fails env' = open_fails env ->
  dump_fails env' = dump_fails env -> dump_exception env' = dump_exception env ->
  out_dir w' = out_dir w -> out_file w' = out_file w ->
  fst (after_fetch env' w' fetched) = fst (after_fetch env w fetched)
  /\ out_file (snd (after_fetch env' w' fetched)) = out_file (snd (after_fetch env w fetched))
  /\ out_dir (snd (after_fetch env' w' fetched)) = out_dir (snd (after_fetch env w fetched)).
Proof.
  intros Hm Ho Hd He Hdir Hfile. unfold after_fetch.
  destruct fetched as [raw | e]; [| simpl; auto].
  destruct (py_len raw) as [n | e]; [| simpl; auto].
  destruct (transform_to_quacs_schema raw) as [out | e]; [| simpl; auto].
  apply write_steps_ignore_console; assumption.
Qed.

Lemma terms_outcome_not_in_courses_fetch (o : http_outcome) (env : environment) :
  fetch_courses (with_terms_outcome o env) YEAR TERM MVP_SCHOOL MVP_SUBJECT
  = fetch_courses env YEAR TERM MVP_SCHOOL MVP_SUBJECT.
Proof. reflexivity. Qed.

(** C9: when the terms fetch fails, [main] prints the warning and goes on to
    the courses fetch: a courses answer that transforms is written to the
    output file, a courses failure ends the run with its exception, and
    neither the result of the run nor the file depends on how the terms
    request went. *)
Theorem terms_failure_is_not_fatal (env : environment) (w : world) (e : exn) :
  get_json env TERMS_ENDPOINT None = Raise e ->
  let w' := logged w [SayFetchingTerms; SayWarning TERMS_ENDPOINT e;
                      SayFetching YEAR TERM MVP_SCHOOL MVP_SUBJECT] in
  (forall raw n doc,
      fetch_courses env YEAR TERM MVP_SCHOOL MVP_SUBJECT = Ok raw ->
      py_len raw = Ok n ->
      transform_to_quacs_schema raw = Ok doc ->
      mkdir_fails env = false -> open_fails env = false -> dump_fails env = false ->
      main env w
      = (Ok tt, {| out_dir := true; out_file := Some (JsonDump doc);
                   console := (console w' ++ [SayTransforming n; SayWrote])%list |}))
  /\ (forall e', fetch_courses env YEAR TERM MVP_SCHOOL MVP_SUBJECT = Raise e' ->
        main env w = (Raise e', w'))
  /\ (forall o,
        fst (main (with_terms_outcome o env) w) = fst (main env w)
        /\ out_file (snd (main (with_terms_outcome o env) w)) = out_file (snd (main env w))).
Proof.
  intros Hterms w'.
  assert (terms_event env = SayWarning TERMS_ENDPOINT e) as Hev.
  { unfold terms_event. rewrite Hterms. reflexivity. }
  split; [| split].
  - intros raw n doc Hraw Hn Hdoc Hm Ho Hd.
    rewrite main_run, Hev, Hraw. fold w'. unfold after_fetch. rewrite Hn, Hdoc.
    unfold pbind, mkdir_out_dir, write_out_file, print, logged. rewrite Hm, Ho, Hd.
    simpl. rewrite <- !app_assoc. reflexivity.
  - intros e' He'. rewrite (main_aborts_on_fetch_failure env w e' He'), Hev. reflexivity.
  - intros o. rewrite !main_run, terms_outcome_not_in_courses_fetch.
    destruct (after_fetch_ignores_console env (with_terms_outcome o env)
                (logged w [SayFetchingTerms; terms_event env;
                           SayFetching YEAR TERM MVP_SCHOOL MVP_SUBJECT])
                (logged w [SayFetchingTerms; terms_event (with_terms_outcome o env);
                           SayFetching YEAR TERM MVP_SCHOOL MVP_SUBJECT])
                (fetch_courses env YEAR TERM MVP_SCHOOL MVP_SUBJECT))
      as (Hres & Hfile & _); try reflexivity.
    split; assumption.
Qed.

Lemma terms_failure_is_not_fatal_witness :
  get_json terms_down TERMS_ENDPOINT None = Raise Timeout
  /\ exists doc,
       transform_to_quacs_schema (PList [scenario_course]) = Ok doc
       /\ main terms_down earlier_world
          = (Ok tt,
             {| out_dir := true; out_file := Some (JsonDump doc);
                console := [SayFetchingTerms; SayWarning TERMS_ENDPOINT Timeout;
                            SayFetching YEAR TERM MVP_SCHOOL MVP_SUBJECT;
                            SayTransforming 1; SayWrote] |}).
Proof.
  split; [reflexivity |].
  eexists. split; [reflexivity |].
  exact (proj1 (terms_failure_is_not_fatal terms_down earlier_world Timeout eq_refl)
           (PList [scenario_course]) 1%nat _ eq_refl eq_refl eq_refl eq_refl eq_refl eq_refl).
Defined.

(** * Further properties of the transform *)

(** ** Loops *)

Lemma bind_raise_inv {A B} (m : result A) (k : A -> result B) (e : exn) :
  (x <- m ;; k x) = Raise e -> m = Raise e \/ exists a, m = Ok a /\ k a = Raise e.
Proof.
  destruct m as [a | e']; simpl; intros H; [right; eauto |].
  left. injection H as ->. reflexivity.
Qed.

Lemma por_raise_inv (a b : result pyval) (e : exn) :
  a or_else b = Raise e -> a = Raise e \/ b = Raise e.
Proof.
  unfold por. destruct a as [x | e']; [| auto].
  destruct (truthy x); [discriminate | auto].
Qed.

(** A loop over two lists one after the other. *)
Lemma for_each_app {S} (body : pyval -> S -> result S) (l1 l2 : list pyval) (acc : S) :
  for_each (l1 ++ l2) body acc = (a <- for_each l1 body acc ;; for_each l2 body a).
Proof.
  revert acc. induction l1 as [| x l1 IH]; simpl; intros acc; [reflexivity |].
  destruct (body x acc) as [a | e]; simpl; [apply IH | reflexivity].
Qed.

Lemma for_each_raise {S} (body : pyval -> S -> result S) (items : list pyval) :
  forall acc e, for_each items body acc = Raise e ->
  exists x a, In x items /\ body x a = Raise e.
Proof.
  induction items as [| x rest IH]; simpl; intros acc e H; [discriminate |].
  apply bind_raise_inv in H as [H | (a & _ & H)].
  - exists x, acc. auto.
  - apply IH in H as (y & a' & Hy & H). exists y, a'. auto.
Qed.

Lemma for_each_append_intro (f : pyval -> result pyval) (items ds : list pyval) :
  Forall2 (fun x d => f x = Ok d) items ds ->
  forall acc, for_each items (fun x a => d <- f x ;; Ok (a ++ [d])%list) acc
              = Ok (acc ++ ds)%list.
Proof.
  induction 1 as [| x d xs ds' Hx _ IH]; simpl; intros acc.
  - rewrite app_nil_r. reflexivity.
  - rewrite Hx. simpl. rewrite IH, <- app_assoc. reflexivity.
Qed.

(** The instructors loop keeps the truthy names, in the order of the input. *)
Lemma instructors_loop (items : list pyval) :
  forall acc r,
  for_each items instructor_step acc = Ok r ->
  exists names, Forall2 (fun i n => instructor_name i = Ok n) items names
                /\ r = (acc ++ filter truthy names)%list.
Proof.
  induction items as [| i rest IH]; simpl; intros acc r H.
  - injection H as <-. exists []. rewrite app_nil_r. split; constructor.
  - apply bind_ok_inv in H as (a & Hstep & Hrest).
    unfold instructor_step in Hstep. apply bind_ok_inv in Hstep as (n & Hn & Hret).
    injection Hret as <-. apply IH in Hrest as (names & Hall & ->).
    exists (n :: names). split; [constructor; assumption |]. simpl.
    destruct (truthy n); [rewrite <- app_assoc |]; reflexivity.
Qed.

(** ** When the transform runs *)

Lemma for_each_ok_all {S} (q : pyval -> bool) (body : pyval -> S -> result S) :
  (forall x a a', body x a = Ok a' -> q x = true) ->
  forall items acc r, for_each items body acc = Ok r -> forallb q items = true.
Proof.
  intros Hq items. induction items as [| x rest IH]; simpl; intros acc r H; [reflexivity |].
  apply bind_ok_inv in H as (a & Hx & Hrest).
  rewrite (Hq _ _ _ Hx). exact (IH _ _ Hrest).
Qed.

Lemma loop_ok_shape {S} (q : pyval -> bool) (body : pyval -> S -> result S)
  (v : pyval) (acc r : S) :
  (forall x a a', body x a = Ok a' -> q x = true) ->
  (items <- py_iter v ;; for_each items body acc) = Ok r -> iter_all q v = true.
Proof.
  intros Hq H. apply bind_ok_inv in H as (items & Hit & H).
  unfold iter_all. rewrite Hit. exact (for_each_ok_all q body Hq _ _ _ H).
Qed.

Lemma instructor_step_ok_dict (i : pyval) (a a' : list pyval) :
  instructor_step i a = Ok a' -> is_dict i = true.
Proof. destruct i; try reflexivity; intros H; cbv in H; discriminate. Qed.

Lemma meeting_step_ok_dict (m : pyval) (a a' : list pyval) :
  meeting_step m a = Ok a' -> is_dict m = true.
Proof. destruct m; try reflexivity; intros H; cbv in H; discriminate. Qed.

Lemma section_out_ok_shape (s out : pyval) :
  section_out s = Ok out -> runs_section s = true.
Proof.
  destruct s as [| | | | | | d]; try (intros H; cbv in H; discriminate).
  intros H. apply section_out_inv in H as (ri & rm & instrs & ms & Hri & Hi & Hrm & Hm & _).
  cbn [runs_section]. unfold iter_all. rewrite Hri, Hrm.
  rewrite (for_each_ok_all is_dict instructor_step instructor_step_ok_dict _ _ _ Hi).
  exact (for_each_ok_all is_dict meeting_step meeting_step_ok_dict _ _ _ Hm).
Qed.

Lemma section_step_ok_shape (s : pyval) (a a' : list pyval) :
  section_step s a = Ok a' -> runs_section s = true.
Proof.
  unfold section_step. intros H. apply bind_ok_inv in H as (out & H & _).
  exact (section_out_ok_shape _ _ H).
Qed.

Lemma course_out_ok_shape (c out : pyval) :
  course_out c = Ok out -> runs_course c = true.
Proof.
  destruct c as [| | | | | | d]; try (intros H; cbv in H; discriminate).
  intros H. apply course_out_inv in H as (ss & sections & Hss & Hs & _).
  cbn [runs_course]. unfold iter_all. rewrite Hss.
  exact (for_each_ok_all runs_section section_step section_step_ok_shape _ _ _ Hs).
Qed.

Lemma course_step_ok_shape (c : pyval) (a a' : list pyval) :
  course_step c a = Ok a' -> runs_course c = true.
Proof.
  unfold course_step. intros H. apply bind_ok_inv in H as (out & H & _).
  exact (course_out_ok_shape _ _ H).
Qed.

Lemma transform_ok_shape (raw doc : pyval) :
  transform_to_quacs_schema raw = Ok doc -> runs_transform raw = true.
Proof.
  unfold transform_to_quacs_schema. intros H.
  apply bind_ok_inv in H as (items & Hit & H). apply bind_ok_inv in H as (out & Hout & _).
  unfold runs_transform, iter_all. rewrite Hit.
  exact (for_each_ok_all runs_course course_step course_step_ok_shape _ _ _ Hout).
Qed.

(** A loop whose items are all mappings is a loop over a list, or over
    nothing. *)
Lemma iter_all_items (p q : pyval -> bool) (v : pyval) :
  (forall x, p x = true -> is_dict x = true) ->
  iter_all p v = true ->
  match v with PList l => forallb q l | _ => true end = true ->
  exists items, py_iter v = Ok items /\ forallb (fun x => p x && q x) items = true.
Proof.
  intros Hp. unfold iter_all. destruct v as [| | | | s | l | d]; simpl; try discriminate.
  - destruct s as [| c s]; simpl; [eauto |].
    intros H. apply andb_prop in H as (H & _). apply Hp in H. discriminate.
  - intros Hl Hq. exists l. split; [reflexivity | apply forallb_both; assumption].
  - destruct d as [| kv d]; simpl; [eauto |].
    intros H. apply andb_prop in H as (H & _). apply Hp in H. discriminate.
Qed.

Lemma iter_all_ok (p : pyval -> bool) (v : pyval) :
  iter_all p v = true -> exists items, py_iter v = Ok items /\ forallb p items = true.
Proof. unfold iter_all. destruct (py_iter v); [eauto | discriminate]. Qed.

Lemma runs_section_dict (s : pyval) : runs_section s = true -> is_dict s = true.
Proof. destruct s; simpl; auto. Qed.

Lemma runs_course_dict (c : pyval) : runs_course c = true -> is_dict c = true.
Proof. destruct c; simpl; auto. Qed.

Lemma section_out_returns (s : pyval) :
  runs_section s && plain_section s = true -> exists out, section_out s = Ok out.
Proof.
  destruct s as [| | | | | | d]; try discriminate. cbn [runs_section plain_section].
  intros H. apply andb_prop in H as (H & Hplain). apply andb_prop in H as (Hi & Hm).
  destruct (iter_all_items is_dict plain_instructor _ (fun x H => H) Hi Hplain)
    as (li & Hli & Hpi).
  apply iter_all_ok in Hm as (lm & Hlm & Hpm).
  destruct (loop_total _ instructor_step instructor_step_total li [] Hpi)
    as (instrs & Hinstrs).
  destruct (loop_total is_dict meeting_step meeting_step_total lm [] Hpm)
    as (meetings & Hmeetings).
  unfold section_out, py_get. rewrite !por_ok. cbn [bind].
  rewrite Hli. cbn [bind]. rewrite Hinstrs. cbn [bind].
  rewrite Hlm. cbn [bind]. rewrite Hmeetings. cbn [bind]. eauto.
Qed.

Lemma section_step_returns (s : pyval) (acc : list pyval) :
  runs_section s && plain_section s = true -> exists acc', section_step s acc = Ok acc'.
Proof.
  intros H. unfold section_step. destruct (section_out_returns s H) as (out & ->).
  simpl. eauto.
Qed.

Lemma course_out_returns (c : pyval) :
  runs_course c && plain_course c = true -> exists out, course_out c = Ok out.
Proof.
  destruct c as [| | | | | | d]; try discriminate. cbn [runs_course plain_course].
  intros H. apply andb_prop in H as (H & Hplain).
  apply andb_prop in Hplain as (Hplain & Hsecs). apply andb_prop in Hplain as (Hs & Hn).
  destruct (iter_all_items runs_section plain_section _ runs_section_dict H Hsecs)
    as (ls & Hls & Hps).
  destruct (loop_total _ section_step section_step_returns ls [] Hps)
    as (sections & Hsections).
  unfold course_out, py_get. rewrite !por_ok. cbn [bind].
  rewrite Hls. cbn [bind]. rewrite Hsections. cbn [bind].
  fold (course_subject d). fold (course_number d).
  rewrite (py_format_prints _ (plain_prints _ Hs)), (py_format_prints _ (plain_prints _ Hn)).
  cbn [bind]. eauto.
Qed.

Lemma course_step_returns (c : pyval) (acc : list pyval) :
  runs_course c && plain_course c = true -> exists acc', course_step c acc = Ok acc'.
Proof.
  intros H. unfold course_step. destruct (course_out_returns c H) as (out & ->).
  simpl. eauto.
Qed.

(** X3: the shapes the transform runs on. When some loop is not over a list
    of mappings, an empty string or an empty mapping (the courses value, a
    course's 'sections', a section's 'instructors' and 'meetings', each []
    when absent), the transform raises; when every loop is, and the values
    formatted as text are plain, it returns. *)
Theorem transform_runs_on_shapes (raw : pyval) :
  (runs_transform raw = false -> exists e, transform_to_quacs_schema raw = Raise e)
  /\ (runs_transform raw = true -> plain_texts raw = true ->
      exists doc, transform_to_quacs_schema raw = Ok doc).
Proof.
  split.
  - intros Hshape. destruct (transform_to_quacs_schema raw) as [doc | e] eqn:H; [| eauto].
    apply transform_ok_shape in H. congruence.
  - intros Hshape Hplain.
    destruct (iter_all_items runs_course plain_course raw runs_course_dict Hshape Hplain)
      as (items & Hit & Hall).
    destruct (loop_total _ course_step course_step_returns items [] Hall) as (out & Hout).
    unfold transform_to_quacs_schema. rewrite Hit. cbn [bind]. rewrite Hout. simpl. eauto.
Qed.

Lemma transform_runs_on_shapes_witness :
  (exists e, transform_to_quacs_schema (PList [PDict [("sections", PStr "A1")]]) = Raise e)
  /\ exists doc,
       transform_to_quacs_schema (PList [PDict [("sections", PStr "")]; scenario_course])
       = Ok doc.
Proof.
  split.
  - exact (proj1 (transform_runs_on_shapes (PList [PDict [("sections", PStr "A1")]]))
             eq_refl).
  - exact (proj2 (transform_runs_on_shapes
                    (PList [PDict [("sections", PStr "")]; scenario_course]))
             eq_refl eq_refl).
Defined.

(** ** What the transform returns *)

Lemma py_len_iter (v : pyval) (n : nat) (items : list pyval) :
  py_len v = Ok n -> py_iter v = Ok items -> n = List.length items.
Proof.
  destruct v; simpl; try discriminate; intros Hn Hi;
    injection Hn as <-; injection Hi as <-.
  - unfold chars. rewrite length_map. induction s; simpl; congruence.
  - reflexivity.
  - rewrite length_map. reflexivity.
Qed.

Lemma transform_ok_inv (raw doc : pyval) :
  transform_to_quacs_schema raw = Ok doc ->
  exists items outs,
    py_iter raw = Ok items
    /\ doc = PDict [("courses", PList outs)]
    /\ Forall2 (fun c out => course_out c = Ok out) items outs.
Proof.
  unfold transform_to_quacs_schema. intros H.
  apply bind_ok_inv in H as (items & Hit & H).
  apply bind_ok_inv in H as (outs & Houts & H). injection H as <-.
  apply for_each_append in Houts as (ds & -> & Hall).
  exists items, ds. auto.
Qed.

(** X1: the courses of the returned document are the dicts [course_out]
    makes for the items of the input, one per item and in the same order. *)
Theorem transform_maps_courses_in_order (raw doc : pyval) :
  transform_to_quacs_schema raw = Ok doc ->
  exists items outs,
    py_iter raw = Ok items
    /\ doc = PDict [("courses", PList outs)]
    /\ Forall2 (fun c out => course_out c = Ok out) items outs
    /\ List.length outs = List.length items.
Proof.
  intros H. apply transform_ok_inv in H as (items & outs & Hit & -> & Hall).
  exists items, outs. repeat split; auto.
  symmetry. exact (Forall2_length Hall).
Qed.

Lemma transform_maps_courses_in_order_witness :
  exists items outs,
    py_iter (PList [scenario_course; PDict []]) = Ok items
    /\ Forall2 (fun c out => course_out c = Ok out) items outs
    /\ List.length outs = 2%nat.
Proof.
  destruct (transform_maps_courses_in_order (PList [scenario_course; PDict []]) _ eq_refl)
    as (items & outs & Hit & _ & Hall & Hlen).
  exists items, outs. injection Hit as <-. repeat split; auto.
Defined.

(** X2: the transform of two lists put end to end is the two transforms put
    end to end; when the first list raises, so does the whole, with the same
    exception. *)
Theorem transform_of_concatenation (l1 l2 : list pyval) :
  (forall out1 out2,
      transform_to_quacs_schema (PList l1) = Ok (PDict [("courses", PList out1)]) ->
      transform_to_quacs_schema (PList l2) = Ok (PDict [("courses", PList out2)]) ->
      transform_to_quacs_schema (PList (l1 ++ l2))
      = Ok (PDict [("courses", PList (out1 ++ out2))]))
  /\ (forall e, transform_to_quacs_schema (PList l1) = Raise e ->
        transform_to_quacs_schema (PList (l1 ++ l2)) = Raise e).
Proof.
  unfold transform_to_quacs_schema. cbn [py_iter bind]. split.
  - intros out1 out2 H1 H2.
    apply bind_ok_inv in H1 as (o1 & H1 & E1). injection E1 as <-.
    apply bind_ok_inv in H2 as (o2 & H2 & E2). injection E2 as <-.
    apply for_each_append in H1 as (d1 & -> & A1).
    apply for_each_append in H2 as (d2 & -> & A2).
    unfold course_step.
    rewrite (for_each_append_intro course_out (l1 ++ l2) (d1 ++ d2) (Forall2_app A1 A2)).
    reflexivity.
  - intros e H. rewrite for_each_app.
    destruct (for_each l1 course_step []) as [a | e']; simpl in *; [discriminate | exact H].
Qed.

Lemma transform_of_concatenation_witness :
  transform_to_quacs_schema (PList ([PDict []] ++ [PDict []]))
  = Ok (PDict [("courses", PList ([default_course] ++ [default_course]))])
  /\ transform_to_quacs_schema (PList ([PNone] ++ [PDict []])) = Raise AttributeError.
Proof.
  split.
  - apply (proj1 (transform_of_concatenation [PDict []] [PDict []])); reflexivity.
  - apply (proj2 (transform_of_concatenation [PNone] [PDict []])). reflexivity.
Defined.

Lemma py_iter_dict_item (v : pyval) (items : list pyval) (x : pyval) :
  py_iter v = Ok items -> In x items -> is_dict x = true -> v = PList items.
Proof.
  destruct v as [| | | | s | l | d]; simpl; try discriminate; intros H Hx Hd;
    injection H as <-.
  - unfold chars in Hx. apply in_map_iff in Hx as (c & <- & _). discriminate.
  - reflexivity.
  - apply in_map_iff in Hx as (kv & <- & _). discriminate.
Qed.

Lemma forallb_false_in (q : pyval -> bool) (l : list pyval) (x : pyval) :
  In x l -> q x = false -> forallb q l = false.
Proof.
  intros Hx Hq. destruct (forallb q l) eqn:E; [| reflexivity].
  rewrite forallb_forall in E. rewrite (E x Hx) in Hq. discriminate.
Qed.

Lemma not_prints_not_plain (v : pyval) : prints v = false -> plain v = false.
Proof.
  intros H. destruct (plain v) eqn:E; [| reflexivity].
  apply plain_prints in E. congruence.
Qed.

Lemma instructor_name_raises (i : pyval) (e : exn) :
  instructor_name i = Raise e ->
  e = AttributeError
  \/ (e = ValueError /\ is_dict i = true /\ plain_instructor i = false).
Proof.
  destruct i as [| | | | | | d]; try (intros H; cbv in H; left; congruence).
  rewrite instructor_name_dict. cbn [plain_instructor is_dict].
  destruct (truthy (get_or d "name" PNone)); [discriminate |]. cbn [orb].
  intros H. right.
  apply bind_raise_inv in H as [H | (ft & _ & H)].
  - apply py_format_raises in H as (H & ->).
    rewrite (not_prints_not_plain _ H). auto.
  - apply bind_raise_inv in H as [H | (lt & _ & H)]; [| discriminate].
    apply py_format_raises in H as (H & ->).
    rewrite (not_prints_not_plain _ H), andb_false_r. auto.
Qed.

Lemma meeting_out_raises (m : pyval) (e : exn) :
  meeting_out m = Raise e -> e = AttributeError.
Proof.
  destruct m as [| | | | | | d]; try (intros H; cbv in H; congruence).
  rewrite meeting_out_dict. discriminate.
Qed.

Lemma py_iter_raises (v : pyval) (e : exn) : py_iter v = Raise e -> e = TypeError.
Proof. destruct v; simpl; congruence. Qed.

Lemma section_out_raises (s : pyval) (e : exn) :
  section_out s = Raise e ->
  (e = TypeError \/ e = AttributeError)
  \/ (e = ValueError /\ is_dict s = true /\ plain_section s = false).
Proof.
  destruct s as [| | | | | | d]; try (intros H; cbv in H; left; right; congruence).
  unfold section_out, py_get. rewrite !por_ok. cbn [bind plain_section is_dict]. intros H.
  apply bind_raise_inv in H as [H | (ri & Hri & H)];
    [left; left; exact (py_iter_raises _ _ H) |].
  apply bind_raise_inv in H as [H | (instrs & _ & H)].
  { apply for_each_raise in H as (x & a & Hx & H). unfold instructor_step in H.
    apply bind_raise_inv in H as [H | (n & _ & H)]; [| discriminate].
    apply instructor_name_raises in H as [-> | (-> & Hd & Hp)]; [auto |].
    right. rewrite (py_iter_dict_item _ _ _ Hri Hx Hd).
    rewrite (forallb_false_in _ _ _ Hx Hp). auto. }
  apply bind_raise_inv in H as [H | (rm & _ & H)];
    [left; left; exact (py_iter_raises _ _ H) |].
  apply bind_raise_inv in H as [H | (ms & _ & H)]; [| discriminate].
  apply for_each_raise in H as (x & a & _ & H). unfold meeting_step in H.
  apply bind_raise_inv in H as [H | (n & _ & H)]; [| discriminate].
  left. right. exact (meeting_out_raises _ _ H).
Qed.

Lemma course_out_raises (c : pyval) (e : exn) :
  course_out c = Raise e ->
  (e = TypeError \/ e = AttributeError)
  \/ (e = ValueError /\ is_dict c = true /\ plain_course c = false).
Proof.
  destruct c as [| | | | | | d]; try (intros H; cbv in H; left; right; congruence).
  unfold course_out, py_get. rewrite !por_ok. cbn [bind plain_course is_dict].
  fold (course_subject d). fold (course_number d). intros H.
  apply bind_raise_inv in H as [H | (items & Hit & H)];
    [left; left; exact (py_iter_raises _ _ H) |].
  apply bind_raise_inv in H as [H | (ss & _ & H)].
  { apply for_each_raise in H as (x & a & Hx & H). unfold section_step in H.
    apply bind_raise_inv in H as [H | (out & _ & H)]; [| discriminate].
    apply section_out_raises in H as [H | (-> & Hd & Hp)]; [auto |].
    right. rewrite (py_iter_dict_item _ _ _ Hit Hx Hd).
    rewrite (forallb_false_in _ _ _ Hx Hp), andb_false_r. auto. }
  right.
  apply bind_raise_inv in H as [H | (st & _ & H)].
  { apply py_format_raises in H as (H & ->).
    rewrite (not_prints_not_plain _ H). auto. }
  assert (py_format (course_number d) = Raise e) as Hn.
  { apply bind_raise_inv in H as [H | (nt & _ & H)]; [exact H |].
    apply bind_raise_inv in H as [H | (ns & _ & H)]; [exact H | discriminate]. }
  apply py_format_raises in Hn as (Hn & ->).
  rewrite (not_prints_not_plain _ Hn), andb_false_r. auto.
Qed.

Lemma transform_raises (raw : pyval) (e : exn) :
  transform_to_quacs_schema raw = Raise e ->
  (e = TypeError \/ e = AttributeError)
  \/ (e = ValueError /\ plain_texts raw = false).
Proof.
  unfold transform_to_quacs_schema. intros H.
  apply bind_raise_inv in H as [H | (items & Hit & H)];
    [left; left; exact (py_iter_raises _ _ H) |].
  apply bind_raise_inv in H as [H | (outs & _ & H)]; [| discriminate].
  apply for_each_raise in H as (x & a & Hx & H). unfold course_step in H.
  apply bind_raise_inv in H as [H | (out & _ & H)]; [| discriminate].
  apply course_out_raises in H as [H | (-> & Hd & Hp)]; [auto |].
  right. rewrite (py_iter_dict_item _ _ _ Hit Hx Hd). cbn [plain_texts].
  rewrite (forallb_false_in _ _ _ Hx Hp). auto.
Qed.

(** X4: when the values formatted as text are plain, the only exceptions
    the transform raises are TypeError (a loop over a value that has no
    items) and AttributeError ([get] on a value that is no mapping); a
    ValueError comes only from a formatted value that is not plain. *)
Theorem transform_raises_only_shape_errors (raw : pyval) (e : exn) :
  transform_to_quacs_schema raw = Raise e ->
  (plain_texts raw = true -> e = TypeError \/ e = AttributeError)
  /\ (e = ValueError -> plain_texts raw = false).
Proof.
  intros H. apply transform_raises in H as [H | (-> & Hp)].
  - split; [auto | intros ->; destruct H; discriminate].
  - split; [congruence | auto].
Qed.

Lemma transform_raises_only_shape_errors_witness :
  transform_to_quacs_schema (PList [PDict [("sections", PInt 3)]]) = Raise TypeError
  /\ (TypeError = TypeError \/ TypeError = AttributeError).
Proof.
  split; [reflexivity |].
  exact (proj1 (transform_raises_only_shape_errors
                  (PList [PDict [("sections", PInt 3)]]) TypeError eq_refl) eq_refl).
Defined.

(** X5: a courses value that is not a list. A non-empty mapping (an error
    envelope, say) or a non-empty string raises AttributeError, since its
    items are strings; an empty one gives a document with no courses; None,
    a number or a boolean raises TypeError. *)
Theorem transform_of_a_non_list :
  (forall k v d, transform_to_quacs_schema (PDict ((k, v) :: d)) = Raise AttributeError)
  /\ (forall c s, transform_to_quacs_schema (PStr (String c s)) = Raise AttributeError)
  /\ transform_to_quacs_schema (PDict []) = Ok (PDict [("courses", PList [])])
  /\ transform_to_quacs_schema (PStr "") = Ok (PDict [("courses", PList [])])
  /\ transform_to_quacs_schema PNone = Raise TypeError
  /\ (forall n, transform_to_quacs_schema (PInt n) = Raise TypeError)
  /\ (forall r, transform_to_quacs_schema (PFloat r) = Raise TypeError)
  /\ (forall b, transform_to_quacs_schema (PBool b) = Raise TypeError).
Proof. repeat split; reflexivity. Qed.

(** X6: in the dict made for a section, the meetings are the dicts
    [meeting_out] makes for the raw meetings, one per item and in order, and
    the instructors are the truthy names of the raw instructors, in order:
    no entry is falsy, and there are at most as many as raw instructors. *)
Theorem section_contents (d : list (string * pyval)) (out : pyval) :
  section_out (PDict d) = Ok out ->
  exists raw_instrs names raw_meetings meetings o,
    py_iter (get_or d "instructors" (PList [])) = Ok raw_instrs
    /\ Forall2 (fun i n => instructor_name i = Ok n) raw_instrs names
    /\ py_iter (get_or d "meetings" (PList [])) = Ok raw_meetings
    /\ Forall2 (fun m out => meeting_out m = Ok out) raw_meetings meetings
    /\ out = PDict o
    /\ lookup "instructors" o = Some (PList (filter truthy names))
    /\ lookup "meetings" o = Some (PList meetings)
    /\ Forall (fun n => truthy n = true) (filter truthy names)
    /\ (List.length (filter truthy names) <= List.length raw_instrs)%nat
    /\ List.length meetings = List.length raw_meetings.
Proof.
  intros H. apply section_out_inv in H as (ri & rm & instrs & ms & Hri & Hi & Hrm & Hm & ->).
  apply instructors_loop in Hi as (names & Hnames & ->).
  apply for_each_append in Hm as (meetings & -> & Hmeetings).
  exists ri, names, rm, meetings. eexists.
  repeat (split; [first [eassumption | reflexivity] |]).
  split; [| split].
  - apply Forall_forall. intros n Hn. apply filter_In in Hn. tauto.
  - rewrite (Forall2_length Hnames). apply filter_length_le.
  - symmetry. exact (Forall2_length Hmeetings).
Qed.

Lemma section_contents_witness :
  exists names o,
    Forall2 (fun i n => instructor_name i = Ok n)
      [PDict [("name", PStr "J. Doe")]; PDict [("firstName", PStr " ")]] names
    /\ section_out
         (PDict [("instructors",
                  PList [PDict [("name", PStr "J. Doe")]; PDict [("firstName", PStr " ")]])])
       = Ok (PDict o)
    /\ lookup "instructors" o = Some (PList (filter truthy names)).
Proof.
  destruct (section_contents
              [("instructors",
                PList [PDict [("name", PStr "J. Doe")]; PDict [("firstName", PStr " ")]])]
              _ eq_refl)
    as (ri & names & rm & ms & o & Hri & Hnames & _ & _ & Ho & Hi & _).
  injection Hri as <-. exists names, o. rewrite <- Ho. repeat split; assumption.
Defined.

(** ** Keys the transform does not read *)

Lemma agree_get_or (ks : list string) (d d' : list (string * pyval)) :
  agree_on ks d d' -> forall k, In k ks -> forall default,
  get_or d k default = get_or d' k default.
Proof. intros H k Hk default. unfold get_or. rewrite (H k Hk). reflexivity. Qed.

(** X7: each level reads its own upstream keys and nothing else: two
    mappings that agree on those keys, whatever other keys they hold and in
    whatever order, give the same result. *)
Theorem unread_keys_do_not_matter (d d' : list (string * pyval)) :
  (agree_on raw_course_keys d d' -> course_out (PDict d) = course_out (PDict d'))
  /\ (agree_on raw_section_keys d d' -> section_out (PDict d) = section_out (PDict d'))
  /\ (agree_on raw_meeting_keys d d' -> meeting_out (PDict d) = meeting_out (PDict d'))
  /\ (agree_on raw_instructor_keys d d' ->
      instructor_name (PDict d) = instructor_name (PDict d')).
Proof.
  split; [| split; [| split]]; intros H.
  - unfold course_out, py_get.
    rewrite !(agree_get_or _ _ _ H) by (simpl; tauto). reflexivity.
  - unfold section_out, py_get.
    rewrite !(agree_get_or _ _ _ H) by (simpl; tauto). reflexivity.
  - rewrite !meeting_out_dict.
    rewrite !(agree_get_or _ _ _ H) by (simpl; tauto). reflexivity.
  - rewrite !instructor_name_dict.
    rewrite !(agree_get_or _ _ _ H) by (simpl; tauto). reflexivity.
Qed.

Lemma unread_keys_do_not_matter_witness :
  meeting_out (PDict [("room", PStr "101"); ("days", PStr "MWF")])
  = meeting_out (PDict [("days", PStr "MWF"); ("capacity", PInt 30); ("room", PStr "101")]).
Proof.
  apply (proj1 (proj2 (proj2 (unread_keys_do_not_matter
           [("room", PStr "101"); ("days", PStr "MWF")]
           [("days", PStr "MWF"); ("capacity", PInt 30); ("room", PStr "101")])))).
  intros k Hk. simpl in Hk.
  repeat (destruct Hk as [<- | Hk]; [reflexivity |]). contradiction.
Defined.


(** ** Trimming *)

Lemma lstrip_splits (s : string) :
  exists a, all_space a = true /\ s = a ++ lstrip s.
Proof.
  induction s as [| c s (a & Ha & IH)]; simpl.
  - exists "". auto.
  - destruct (is_space c) eqn:Hc.
    + exists (String c a). simpl. rewrite Hc, Ha. split; [reflexivity | congruence].
    + exists "". auto.
Qed.

Lemma rstrip_splits (s : string) :
  exists b, all_space b = true /\ s = rstrip s ++ b.
Proof.
  induction s as [| c s (b & Hb & IH)]; simpl.
  - exists "". auto.
  - destruct (rstrip s) as [| c' r] eqn:Hr; simpl in *.
    + destruct (is_space c) eqn:Hc.
      * exists (String c b). simpl. rewrite Hc, Hb. split; [reflexivity | congruence].
      * exists b. split; [exact Hb | simpl; congruence].
    + exists b. split; [exact Hb | simpl; congruence].
Qed.

Lemma lstrip_head (s : string) :
  match lstrip s with
  | EmptyString => True
  | String c _ => is_space c = false
  end.
Proof.
  induction s as [| c s IH]; simpl; [exact I |].
  destruct (is_space c) eqn:Hc; [exact IH | exact Hc].
Qed.

Lemma rstrip_rstrip (s : string) : rstrip (rstrip s) = rstrip s.
Proof.
  induction s as [| c s IH]; simpl; [reflexivity |].
  destruct (rstrip s) as [| c' r] eqn:Hr.
  - destruct (is_space c) eqn:Hc; simpl; [reflexivity |]. rewrite Hc. reflexivity.
  - change (rstrip (String c (String c' r))
            = String c (String c' r)).
    simpl in IH |- *. rewrite IH. reflexivity.
Qed.

Lemma rstrip_keeps_head (c : ascii) (s : string) :
  is_space c = false -> exists r, rstrip (String c s) = String c r.
Proof.
  intros Hc. simpl. destruct (rstrip s); [rewrite Hc |]; eauto.
Qed.

Lemma lstrip_strip (s : string) : lstrip (strip s) = strip s.
Proof.
  unfold strip. pose proof (lstrip_head s) as Hh. destruct (lstrip s) as [| c r].
  - reflexivity.
  - destruct (rstrip_keeps_head c r Hh) as (r' & ->). simpl. rewrite Hh. reflexivity.
Qed.

Lemma strip_fixed (s : string) : strip (strip s) = strip s.
Proof.
  unfold strip at 1. rewrite lstrip_strip. unfold strip. apply rstrip_rstrip.
Qed.

(** X8: [strip] removes whitespace at the two ends and nothing else, and
    stripping again changes nothing; so the id of an output course is the
    text "subject number" without its surrounding whitespace, and has none
    left at either end. *)
Theorem course_id_has_no_outer_space (d : list (string * pyval)) (o : list (string * pyval)) :
  course_out (PDict d) = Ok (PDict o) ->
  exists id subject number a b,
    lookup "id" o = Some (PStr id)
    /\ lookup "subject" o = Some subject
    /\ lookup "number" o = Some (PStr number)
    /\ py_str subject ++ " " ++ number = a ++ id ++ b
    /\ all_space a = true /\ all_space b = true
    /\ lstrip id = id /\ rstrip id = id /\ strip id = id.
Proof.
  intros H. apply course_out_inv in H as (ss & sections & _ & _ & H).
  cbv zeta in H. injection H as ->.
  set (subject := pick (pick (get_or d "subjectCode" PNone) (get_or d "subject" PNone))
                       (PStr "")).
  set (number := pick (pick (pick (get_or d "courseNumber" PNone) (get_or d "code" PNone))
                            (get_or d "catalogNumber" PNone)) (PStr "")).
  set (text := py_str subject ++ " " ++ py_str number).
  destruct (lstrip_splits text) as (a & Ha & Hl).
  destruct (rstrip_splits (lstrip text)) as (b & Hb & Hr).
  exists (strip text), subject, (py_str number), a, b.
  repeat (split; [reflexivity |]).
  split; [| split; [exact Ha | split; [exact Hb | split; [| split]]]].
  - fold text. rewrite Hl at 1. rewrite Hr at 1. reflexivity.
  - apply lstrip_strip.
  - unfold strip. apply rstrip_rstrip.
  - apply strip_fixed.
Qed.

Lemma course_id_has_no_outer_space_witness :
  exists id a b,
    " CS " ++ " " ++ "101" = a ++ id ++ b
    /\ all_space a = true /\ all_space b = true /\ strip id = id.
Proof.
  destruct (course_id_has_no_outer_space
              [("subjectCode", PStr " CS "); ("courseNumber", PInt 101)] _ eq_refl)
    as (id & subject & number & a & b & _ & Hs & Hn & Htext & Ha & Hb & _ & _ & Hid).
  injection Hs as <-. injection Hn as <-.
  exists id, a, b. repeat split; assumption.
Defined.


(** ** The number of a course *)

Lemma str_int_inj (n m : Z) : str_int n = str_int m -> n = m.
Proof.
  unfold str_int. intros H. apply DecimalZ.to_int_inj.
  assert (forall z, Z.to_int z <> Decimal.Pos Decimal.Nil
                    /\ Z.to_int z <> Decimal.Neg Decimal.Nil) as Hnil.
  { intros [| p | p]; simpl; split; try discriminate;
      intros E; injection E as E; exact (DecimalPos.Unsigned.to_uint_nonnil p E). }
  pose proof (NilZero.isi (Z.to_int n) (proj1 (Hnil n)) (proj2 (Hnil n))) as Hn.
  pose proof (NilZero.isi (Z.to_int m) (proj1 (Hnil m)) (proj2 (Hnil m))) as Hm.
  rewrite H in Hn. congruence.
Qed.

(** X9: an integer course number is written in decimal, and different
    integers give different number fields: when two courses take their
    number from integer 'courseNumber' values other than 0 and get the same
    output number, the integers are the same. *)
Theorem integer_numbers_stay_distinct (d d' o o' : list (string * pyval)) (n m : Z) :
  lookup "courseNumber" d = Some (PInt n) -> n <> 0 ->
  lookup "courseNumber" d' = Some (PInt m) -> m <> 0 ->
  course_out (PDict d) = Ok (PDict o) ->
  course_out (PDict d') = Ok (PDict o') ->
  lookup "number" o = Some (PStr (str_int n))
  /\ (lookup "number" o = lookup "number" o' -> n = m).
Proof.
  intros Hd Hn Hd' Hm Ho Ho'.
  assert (forall z, z <> 0 -> truthy (PInt z) = true) as Ht.
  { intros z Hz. simpl. apply negb_true_iff, Z.eqb_neq. exact Hz. }
  apply course_out_inv in Ho as (ss & secs & _ & _ & Ho). cbv zeta in Ho.
  injection Ho as ->.
  apply course_out_inv in Ho' as (ss' & secs' & _ & _ & Ho'). cbv zeta in Ho'.
  injection Ho' as ->.
  cbn [lookup String.eqb Ascii.eqb Bool.eqb].
  rewrite (get_or_present _ _ _ _ Hd), (get_or_present _ _ _ _ Hd').
  assert (forall z b, z <> 0 -> pick (PInt z) b = PInt z) as Hp.
  { intros z b Hz. unfold pick. rewrite (Ht z Hz). reflexivity. }
  rewrite !(Hp n) by exact Hn. rewrite !(Hp m) by exact Hm.
  split; [reflexivity |]. intros E. injection E as E. exact (str_int_inj n m E).
Qed.

Lemma integer_numbers_stay_distinct_witness :
  lookup "number"
    [("id", PStr "CS 101"); ("subject", PStr "CS"); ("number", PStr "101");
     ("title", PStr ""); ("credits", PInt 0); ("sections", PList [])]
  = Some (PStr (str_int 101)).
Proof.
  exact (proj1 (integer_numbers_stay_distinct
                  [("subjectCode", PStr "CS"); ("courseNumber", PInt 101)]
                  [("courseNumber", PInt 7)] _ _ 101 7
                  eq_refl ltac:(discriminate) eq_refl ltac:(discriminate)
                  eq_refl eq_refl)).
Defined.

(** ** Requests *)




(** ** Runs *)

Lemma write_steps_outcomes (env : environment) (w : world) (out : pyval) :
  let run := (mkdir_out_dir env ;;; write_out_file env out ;;; print SayWrote) w in
  (exists e, fst run = Raise e /\ out_file (snd run) = out_file w
             /\ console (snd run) = console w
             /\ (out_dir w = true -> out_dir (snd run) = true))
  \/ (fst run = Raise (dump_exception env) /\ out_file (snd run) = Some Truncated
      /\ dump_fails env = true /\ out_dir (snd run) = true
      /\ console (snd run) = console w)
  \/ (fst run = Ok tt /\ out_file (snd run) = Some (JsonDump out)
      /\ out_dir (snd run) = true
      /\ console (snd run) = (console w ++ [SayWrote])%list).
Proof.
  unfold pbind, mkdir_out_dir, write_out_file, print, logged.
  destruct (mkdir_fails env); simpl; [left; exists OSError; auto |].
  destruct (open_fails env); simpl; [left; exists OSError; auto |].
  destruct (dump_fails env); simpl; auto 10.
Qed.

(** X12: [main] changes the output file only after the fetch and the
    transform have both returned; the file then holds the dump of the
    transform's document, or is cut short when the dump raised. In every
    other run the file is what it was. *)
Theorem main_writes_only_transformed (env : environment) (w : world) :
  out_file (snd (main env w)) = out_file w
  \/ (exists raw doc,
        fetch_courses env YEAR TERM MVP_SCHOOL MVP_SUBJECT = Ok raw
        /\ transform_to_quacs_schema raw = Ok doc
        /\ document_schema doc = true
        /\ (out_file (snd (main env w)) = Some (JsonDump doc)
            \/ (out_file (snd (main env w)) = Some Truncated
                /\ exists e, fst (main env w) = Raise e))).
Proof.
  rewrite main_run. unfold after_fetch.
  destruct (fetch_courses env YEAR TERM MVP_SCHOOL MVP_SUBJECT) as [raw | e];
    [| left; reflexivity].
  destruct (py_len raw) as [n | e]; [| left; reflexivity].
  destruct (transform_to_quacs_schema raw) as [doc | e] eqn:Hdoc; [| left; reflexivity].
  cbv zeta. pose proof (transform_schema _ _ Hdoc) as Hschema.
  destruct (write_steps_outcomes env
              (logged (logged w [SayFetchingTerms; terms_event env;
                                 SayFetching YEAR TERM MVP_SCHOOL MVP_SUBJECT])
                      [SayTransforming n]) doc)
    as [(e & Hr & Hf & _) | [(Hr & Hf & _) | (Hr & Hf & _)]].
  - left. exact Hf.
  - right. exists raw, doc. repeat split; auto. right. eauto.
  - right. exists raw, doc. repeat split; auto.
Qed.

(** X13: when [main] returns, the console has gained five lines, the last
    one saying the file was written, and the count in the "Transforming"
    line is the number of courses in the written document. *)
Theorem main_success_log (env : environment) (w : world) :
  fst (main env w) = Ok tt ->
  exists outs,
    out_file (snd (main env w)) = Some (JsonDump (PDict [("courses", PList outs)]))
    /\ console (snd (main env w))
       = (console w ++ [SayFetchingTerms; terms_event env;
                        SayFetching YEAR TERM MVP_SCHOOL MVP_SUBJECT;
                        SayTransforming (List.length outs); SayWrote])%list.
Proof.
  rewrite main_run. unfold after_fetch.
  destruct (fetch_courses env YEAR TERM MVP_SCHOOL MVP_SUBJECT) as [raw | e];
    [| discriminate].
  destruct (py_len raw) as [n | e] eqn:Hn; [| discriminate].
  destruct (transform_to_quacs_schema raw) as [doc | e] eqn:Hdoc; [| discriminate].
  cbv zeta. intros Hok.
  apply transform_ok_inv in Hdoc as (items & outs & Hit & -> & Hall).
  rewrite (py_len_iter _ _ _ Hn Hit), (Forall2_length Hall) in *.
  destruct (write_steps_outcomes env
              (logged (logged w [SayFetchingTerms; terms_event env;
                                 SayFetching YEAR TERM MVP_SCHOOL MVP_SUBJECT])
                      [SayTransforming (List.length outs)])
              (PDict [("courses", PList outs)]))
    as [(e & Hr & _) | [(Hr & _) | (_ & Hf & _ & Hc)]]; try congruence.
  exists outs. split; [exact Hf |]. rewrite Hc. simpl. rewrite <- !app_assoc. reflexivity.
Qed.

Lemma main_success_log_witness :
  fst (main terms_down earlier_world) = Ok tt
  /\ exists outs,
       out_file (snd (main terms_down earlier_world))
       = Some (JsonDump (PDict [("courses", PList outs)]))
       /\ console (snd (main terms_down earlier_world))
          = [SayFetchingTerms; terms_event terms_down;
             SayFetching YEAR TERM MVP_SCHOOL MVP_SUBJECT;
             SayTransforming (List.length outs); SayWrote].
Proof.
  split; [reflexivity |].
  exact (main_success_log terms_down earlier_world eq_refl).
Defined.

Lemma main_keeps_directory (env : environment) (w : world) :
  out_dir w = true -> out_dir (snd (main env w)) = true.
Proof.
  intros Hdir. rewrite main_run. unfold after_fetch.
  destruct (fetch_courses env YEAR TERM MVP_SCHOOL MVP_SUBJECT) as [raw | e];
    [| exact Hdir].
  destruct (py_len raw) as [n | e]; [| exact Hdir].
  destruct (transform_to_quacs_schema raw) as [doc | e]; [| exact Hdir].
  cbv zeta.
  destruct (write_steps_outcomes env
              (logged (logged w [SayFetchingTerms; terms_event env;
                                 SayFetching YEAR TERM MVP_SCHOOL MVP_SUBJECT])
                      [SayTransforming n]) doc)
    as [(e & _ & _ & _ & H) | [(_ & _ & _ & H & _) | (_ & _ & H & _)]]; auto.
Qed.

(** X14: the script makes the output directory before [main] runs. When
    that fails the script raises OSError with nothing printed, fetched or
    written; when it does not, the directory exists at the end of every run,
    also of one whose fetch fails. *)
Theorem script_makes_directory_first (env : environment) (w : world) :
  (mkdir_fails env = true -> script env w = (Raise OSError, w))
  /\ (mkdir_fails env = false ->
      script env w
      = main env {| out_dir := true; out_file := out_file w; console := console w |}
      /\ out_dir (snd (script env w)) = true).
Proof.
  unfold script, pbind, mkdir_out_dir. split; intros ->.
  - reflexivity.
  - split; [reflexivity |]. apply main_keeps_directory. reflexivity.
Qed.

Lemma script_makes_directory_first_witness :
  out_dir (snd (script courses_down
                  {| out_dir := false; out_file := None; console := [] |})) = true
  /\ fst (script courses_down {| out_dir := false; out_file := None; console := [] |})
     = Raise (HTTPError 503).
Proof.
  split.
  - exact (proj2 (proj2 (script_makes_directory_first courses_down
                           {| out_dir := false; out_file := None; console := [] |})
                    eq_refl)).
  - reflexivity.
Defined.
